(** * SVG-Gen: prompt composition, response interpretation and UI lifecycle

    A shallow embedding of the TypeScript sources
      - [types.ts]                  (module [Types]),
      - [services/geminiService.ts] (module [GeminiService]),
      - [components/InputSection.tsx], the submit handler (module [InputSection]),
      - [App.tsx], the generation handler (module [App]),
    followed by the properties proved about them.

    Strings are [String.string]: sequences of 8-bit code units, that is the
    JavaScript strings all of whose UTF-16 code units are below 256.  On that
    range the built-ins used by the sources ([trim], [toLowerCase],
    [includes], [replace] with a global literal pattern, and the regular
    expression of the interpreter) are modelled exactly. *)

From Stdlib Require Import String Ascii List Bool Arith Lia QArith.
Import ListNotations.
Close Scope Q_scope.
Open Scope string_scope.

(* ================================================================== *)
(** ** JavaScript string built-ins *)
(* ================================================================== *)

Module JsString.

(** The double-quote character (code 34). *)
Definition dquote : ascii := "034"%char.
Definition dq : string := String dquote "".

(** The line feed (code 10). *)
Definition nl : string := String "010"%char "".

(** Truthiness of a string value: every string but the empty one. *)
Definition truthy (s : string) : bool :=
  match s with
  | EmptyString => false
  | String _ _ => true
  end.

(** [a || b] on strings. *)
Definition orElse (a b : string) : string :=
  if truthy a then a else b.

(** Truthiness of an optional (possibly undefined) string property. *)
Definition truthyOpt (o : option string) : bool :=
  match o with
  | Some s => truthy s
  | None => false
  end.

(** [o || b] where [o] may be undefined. *)
Definition optOrElse (o : option string) (b : string) : string :=
  match o with
  | Some s => orElse s b
  | None => b
  end.

Definition code (c : ascii) : nat := nat_of_ascii c.

Definition inRange (lo hi n : nat) : bool :=
  ((lo <=? n)%nat && (n <=? hi)%nat).

(** White space and line terminators stripped by [trim], among the code
    units below 256: TAB, LF, VT, FF, CR, SP and NBSP. *)
Definition isWhiteSpace (c : ascii) : bool :=
  let n := code c in
  inRange 9 13 n || (n =? 32)%nat || (n =? 160)%nat.

Fixpoint trimStart (s : string) : string :=
  match s with
  | EmptyString => EmptyString
  | String c s' => if isWhiteSpace c then trimStart s' else s
  end.

Fixpoint trimEnd (s : string) : string :=
  match s with
  | EmptyString => EmptyString
  | String c s' =>
      match trimEnd s' with
      | EmptyString => if isWhiteSpace c then EmptyString else String c EmptyString
      | r => String c r
      end
  end.

Definition trim (s : string) : string := trimEnd (trimStart s).

(** Lower-casing of one code unit: A-Z, and the Latin-1 capitals
    (192-222 but the multiplication sign 215), move up by 32. *)
Definition lowerChar (c : ascii) : ascii :=
  let n := code c in
  if inRange 65 90 n || (inRange 192 222 n && negb (n =? 215)%nat)
  then ascii_of_nat (n + 32) else c.

Fixpoint toLowerCase (s : string) : string :=
  match s with
  | EmptyString => EmptyString
  | String c s' => String (lowerChar c) (toLowerCase s')
  end.

(** Upper-casing of an ASCII letter.  The sources apply [toUpperCase] to
    the two literals 'Vector Trace' and 'Line Art' only. *)
Definition upperChar (c : ascii) : ascii :=
  let n := code c in
  if inRange 97 122 n then ascii_of_nat (n - 32) else c.

Fixpoint toUpperCase (s : string) : string :=
  match s with
  | EmptyString => EmptyString
  | String c s' => String (upperChar c) (toUpperCase s')
  end.

(** [s.startsWith(p)]. *)
Fixpoint startsWith (s p : string) : bool :=
  match p, s with
  | EmptyString, _ => true
  | String _ _, EmptyString => false
  | String a p', String b s' => Ascii.eqb a b && startsWith s' p'
  end.

(** [s.includes(p)]. *)
Fixpoint includes (s p : string) : bool :=
  startsWith s p ||
  match s with
  | EmptyString => false
  | String _ s' => includes s' p
  end.

(** [s.replace(/p/g, r)] for a literal, non-empty pattern [p]: the
    occurrences of [p] are found from left to right and do not overlap.
    [skip] counts the code units of the current occurrence still to pass. *)
Fixpoint replaceFrom (p r s : string) (skip : nat) : string :=
  match s with
  | EmptyString => EmptyString
  | String c s' =>
      match skip with
      | S k => replaceFrom p r s' k
      | O =>
          if startsWith s p
          then r ++ replaceFrom p r s' (String.length p - 1)
          else String c (replaceFrom p r s' 0)
      end
  end.

Definition replaceAll (p r s : string) : string := replaceFrom p r s 0.

(** Dropping and keeping the first [n] code units. *)
Fixpoint drop (n : nat) (s : string) : string :=
  match n, s with
  | O, _ => s
  | S _, EmptyString => EmptyString
  | S k, String _ s' => drop k s'
  end.

Fixpoint take (n : nat) (s : string) : string :=
  match n, s with
  | O, _ => EmptyString
  | S _, EmptyString => EmptyString
  | S k, String c s' => String c (take k s')
  end.

(** [s.split(sep)] for a separator of one code unit: the pieces between
    its occurrences, of which there is always at least one. *)
Fixpoint split (sep : ascii) (s : string) : list string :=
  match s with
  | EmptyString => [EmptyString]
  | String c s' =>
      if Ascii.eqb c sep then EmptyString :: split sep s'
      else match split sep s' with
           | [] => [String c EmptyString]
           | piece :: pieces => String c piece :: pieces
           end
  end.

End JsString.
Import JsString.

(* ================================================================== *)
(** ** types.ts *)
(* ================================================================== *)

Module Types.

Inductive GenerationStatus := IDLE | LOADING | SUCCESS | ERROR.

Record GeneratedSvg := mkGeneratedSvg {
  id : string;
  content : string;
  prompt : string;
  timestamp : Z
}.

Record ApiError := mkApiError {
  message : string;
  details : option string;
  suggestion : option string
}.

Record ImageData := mkImageData {
  data : string;
  mimeType : string;
  previewUrl : string
}.

Inductive SvgStyle :=
| Flat | Material | VectorTrace | LineArt | Minimalist | Isometric
| PixelArt | Gradient | HandDrawn | Blueprint | Cyberpunk | LowPoly
| PopArt | PaperCutout.

(** The string each member of the union type [SvgStyle] is. *)
Definition styleName (s : SvgStyle) : string :=
  match s with
  | Flat => "Flat"
  | Material => "Material"
  | VectorTrace => "Vector Trace"
  | LineArt => "Line Art"
  | Minimalist => "Minimalist"
  | Isometric => "Isometric"
  | PixelArt => "Pixel Art"
  | Gradient => "Gradient"
  | HandDrawn => "Hand Drawn"
  | Blueprint => "Blueprint"
  | Cyberpunk => "Cyberpunk"
  | LowPoly => "Low Poly"
  | PopArt => "Pop Art"
  | PaperCutout => "Paper Cutout"
  end.

Inductive TraceComplexity := Low | Medium | High.
Inductive TraceColors := Monochrome | Limited | Full.
Inductive TraceStrokeWeight := Thin | Standard | Thick.
Inductive TraceLineCap := Butt | Round | Square.
Inductive TraceLineFill := NoFill | Solid.

Definition strokeWeightName (w : TraceStrokeWeight) : string :=
  match w with Thin => "Thin" | Standard => "Standard" | Thick => "Thick" end.

Definition lineCapName (c : TraceLineCap) : string :=
  match c with Butt => "Butt" | Round => "Round" | Square => "Square" end.

Record TraceSettings := mkTraceSettings {
  complexity : TraceComplexity;
  colors : TraceColors;
  strokeWeight : TraceStrokeWeight;
  lineCap : TraceLineCap;
  lineFill : TraceLineFill
}.

End Types.
Import Types.

(* ================================================================== *)
(** ** services/geminiService.ts *)
(* ================================================================== *)

Module GeminiService.

Record ImagePart := mkImagePart {
  inlineData_data : string;
  inlineData_mimeType : string
}.

(** [getTemperatureForStyle]: the [switch] over the style string. *)
Definition getTemperatureForStyle (style : string) : Q :=
  if (style =? "Vector Trace") || (style =? "Blueprint")
     || (style =? "Pixel Art") || (style =? "Isometric")
  then 0.15%Q
  else if (style =? "Flat") || (style =? "Material")
          || (style =? "Minimalist") || (style =? "Low Poly")
  then 0.3%Q
  else if (style =? "Hand Drawn") || (style =? "Gradient")
          || (style =? "Cyberpunk") || (style =? "Pop Art")
  then 0.6%Q
  else 0.4%Q.

(** The object literal [instructions] of [getStyleInstructions], in the
    order of its properties. *)
Definition instructions : list (string * string) :=
  [ ("Vector Trace",
     "Goal: PHOTOREALISTIC REPRODUCTION. Trace the input image exactly. Use as many paths and gradients as necessary to capture the full detail, lighting, and shading of the original image. Do not simplify or stylize unless asked.");
    ("Flat",
     "Goal: Clean, modern flat design. No gradients, drop shadows, or textures. Use solid colors and geometric precision.");
    ("Material",
     "Goal: Google Material Design. Use subtle depth, card-like layers, slight drop shadows (simulated with semi-transparent paths), and vibrant standard colors.");
    ("Line Art",
     "Goal: Monoline vector illustration. Use only strokes (stroke-width=" ++ dq ++ "2" ++ dq ++ " or similar), no fill (or white fill). Focus on the outline and essential details.");
    ("Blueprint",
     "Goal: Technical architectural blueprint. Background color must be #0f4c81 (Classic Blue) or #0022AA. All lines should be white. Use dashed lines for hidden details. Add measurement markers if applicable.");
    ("Cyberpunk",
     "Goal: Futuristic, high-tech aesthetic. Use a dark background (#000 or #111). Neon colors: Cyan (#00f3ff), Magenta (#ff00ff), Lime Green. Use glitch effects (jagged paths) and glowing elements.");
    ("Low Poly",
     "Goal: Low Polygon Art. Construct the image entirely out of non-overlapping triangles. No curves. Use flat shading for each triangle to create a faceted 3D effect.");
    ("Isometric",
     "Goal: 30-degree isometric projection. Create a pseudo-3D look. maintain consistent parallel lines. clean geometric structures.");
    ("Pixel Art",
     "Goal: 8-bit or 16-bit retro style. Use small rect elements to simulate pixels. Keep all " ++ dq ++ "pixels" ++ dq ++ " aligned to a strict grid.");
    ("Pop Art",
     "Goal: Warhol/Lichtenstein style. Bold black outlines, high contrast, Ben-Day dots (simulated with pattern fills if possible, or simple dots), and vibrant primary colors.");
    ("Paper Cutout",
     "Goal: Layered paper craft effect. Use shapes with slightly offset semi-transparent black duplicates underneath to simulate drop shadows and depth between layers.") ].

(** Property access [table[key]] on an object literal whose own
    properties are [table]: [None] stands for [undefined].  (Keys naming
    a property inherited from [Object.prototype] are outside the model;
    no style is one.) *)
Fixpoint lookup (key : string) (table : list (string * string)) : option string :=
  match table with
  | [] => None
  | (k, v) :: rest => if key =? k then Some v else lookup key rest
  end.

Definition genericRule : string := "Goal: High quality vector art.".

(** The directive each [switch] and [if] of the settings block appends. *)
Definition complexityRule (c : TraceComplexity) : string :=
  match c with
  | Low => nl ++ "- SIMPLIFY PATHS: Use smooth Bezier curves with minimal nodes. Remove small details and noise. Abstract shapes into clean geometry."
  | High => nl ++ "- HIGH FIDELITY: Capture fine details, textures, and small elements. Use precise paths. Do not simplify."
  | Medium => nl ++ "- BALANCED DETAIL: Standard vectorization. Clean up noise but keep main features distinct."
  end.

Definition colorRule (c : TraceColors) : string :=
  match c with
  | Monochrome => nl ++ "- MONOCHROME: Use ONLY black and white (or foreground/background). No grayscale, no gradients."
  | Limited => nl ++ "- LIMITED PALETTE: Use a maximum of 16 distinct colors. Group similar shades (quantization). Solid fills only, minimize gradients."
  | Full => nl ++ "- FULL COLOR: Use full color spectrum. Use gradients and complex shading if necessary to match the original."
  end.

Definition fillRule (f : TraceLineFill) : string :=
  match f with
  | Solid => nl ++ "- FILL STYLE: Solid Fill. Fill closed shapes with the same color as the outline (or black). Do not use fill='none'. Create solid silhouettes or filled illustrations."
  | NoFill => nl ++ "- FILL STYLE: No Fill (Stroke Only). Ensure `fill=" ++ dq ++ "none" ++ dq ++ "` for all paths. Rely entirely on strokes to define the image."
  end.

Definition strokeWeightRule (w : TraceStrokeWeight) : string :=
  match w with
  | Thin => nl ++ "- STROKE WEIGHT: Thin lines (0.5px - 1px) where strokes are used."
  | Thick => nl ++ "- STROKE WEIGHT: Thick, bold lines (3px - 5px) where strokes are used."
  | Standard => nl ++ "- STROKE WEIGHT: Standard line width (1px - 2px) where strokes are used."
  end.

Definition lineCapRule (c : TraceLineCap) : string :=
  nl ++ "- STROKE LINECAP: Ensure any stroked paths use 'stroke-linecap="
     ++ dq ++ toLowerCase (lineCapName c) ++ dq ++ "'.".

(** The local [settingsRefinement] of [getStyleInstructions]: the header,
    then one [+=] after the other, each under the test the source puts
    it under. *)
Definition settingsRefinement (style : string) (ts : TraceSettings) : string :=
  let s0 := nl ++ toUpperCase style ++ " SETTINGS:" in
  let s1 :=
    if style =? "Vector Trace"
    then (s0 ++ complexityRule (complexity ts)) ++ colorRule (colors ts)
    else s0 in
  let s2 :=
    if style =? "Line Art" then s1 ++ fillRule (lineFill ts) else s1 in
  let s3 :=
    if truthy (strokeWeightName (strokeWeight ts))
    then s2 ++ strokeWeightRule (strokeWeight ts)
    else s2 in
  let s4 :=
    if truthy (lineCapName (lineCap ts))
    then s3 ++ lineCapRule (lineCap ts)
    else s3 in
  s4.

(** [getStyleInstructions]. *)
Definition getStyleInstructions (style : string)
    (traceSettings : option TraceSettings) : string :=
  let rule := optOrElse (lookup style instructions) genericRule in
  match traceSettings with
  | Some ts =>
      if (style =? "Vector Trace") || (style =? "Line Art")
      then rule ++ settingsRefinement style ts
      else rule
  | None => rule
  end.

(** The template literal [systemPrompt]. *)
Definition systemPrompt (style styleRules : string) : string :=
  nl
  ++ "      You are a world-class expert in Scalable Vector Graphics (SVG) design and coding. " ++ nl
  ++ "      Your task is to generate a high-quality, visually stunning, and detailed SVG based on the user's request." ++ nl
  ++ "      " ++ nl
  ++ "      STYLE PROTOCOL: " ++ dq ++ style ++ dq ++ nl
  ++ "      " ++ styleRules ++ nl
  ++ nl
  ++ "      TECHNICAL GUIDELINES:" ++ nl
  ++ "      1.  **Output Format**: Return ONLY the raw SVG code. No markdown, no code blocks, no text explanations." ++ nl
  ++ "      2.  **Responsiveness**: Always include a `viewBox` attribute (e.g., " ++ dq ++ "0 0 512 512" ++ dq ++ "). Do not hardcode `width` and `height` attributes on the root svg tag, or set them to '100%'." ++ nl
  ++ "      3.  **Optimization**: " ++ nl
  ++ "          - Use `<path>` elements primarily for complex shapes." ++ nl
  ++ "          - Optimize coordinates (max 2 decimal places) to keep code concise." ++ nl
  ++ "          - Group related elements with `<g>`." ++ nl
  ++ "      4.  **Self-Contained**: No external image references (`<image href=" ++ dq ++ "..." ++ dq ++ ">`). Everything must be drawn with vectors." ++ nl
  ++ "      5.  **Quality**: Ensure paths are closed where appropriate. Avoid intersecting self-overlapping paths that cause rendering artifacts." ++ nl
  ++ "    ".

(** The template literal of the multimodal branch, with [details] for the
    value interpolated after [Specific details from user:]. *)
Definition imageTemplate (style details : string) : string :=
  nl
  ++ "      Reference Image provided. " ++ nl
  ++ "      Task: Convert this image into an SVG following the " ++ dq ++ style ++ dq ++ " style." ++ nl
  ++ "      " ++ nl
  ++ "      Specific details from user: " ++ dq ++ details ++ dq ++ nl
  ++ "      " ++ nl
  ++ "      "
  ++ (if style =? "Vector Trace"
      then "CRITICAL: Trace the image according to the TRACE CONFIGURATION in system instructions."
      else "Interpret the image content but strictly apply the requested artistic style.")
  ++ nl
  ++ "      ".

(** The template literal of the text-only branch. *)
Definition textTemplate (prompt style : string) : string :=
  nl
  ++ "      Create an SVG artwork of: " ++ dq ++ prompt ++ dq ++ "." ++ nl
  ++ "      Style: " ++ style ++ nl
  ++ "      ".

(** The variable [userPrompt] after the [if (imagePart)]. *)
Definition userPrompt (prompt : string) (imagePart : option ImagePart)
    (style : string) : string :=
  match imagePart with
  | Some _ => imageTemplate style (orElse prompt "Convert to SVG")
  | None => textTemplate prompt style
  end.

(** The request handed to [ai.models.generateContent]. *)
Inductive Contents :=
| Text (text : string)
| Parts (image : ImagePart) (text : string).

Record GenerateContentRequest := mkRequest {
  model : string;
  contents : Contents;
  systemInstruction : string;
  temperature : Q;
  topP : Q;
  topK : nat
}.

Definition composeRequest (prompt : string) (imagePart : option ImagePart)
    (style : string) (traceSettings : option TraceSettings)
    : GenerateContentRequest :=
  let styleRules := getStyleInstructions style traceSettings in
  let up := userPrompt prompt imagePart style in
  {| model := "gemini-3-pro-preview";
     contents := match imagePart with
                 | Some img => Parts img up
                 | None => Text up
                 end;
     systemInstruction := systemPrompt style styleRules;
     temperature := getTemperatureForStyle style;
     topP := 0.95%Q;
     topK := 40 |}.

(** A thrown value: an [Error] object with the properties the handlers
    read.  [None] is an absent ([undefined]) property. *)
Record JsError := mkJsError {
  err_name : string;
  err_message : option string;
  err_details : option string;
  err_suggestion : option string
}.

(** [new Error(msg)]. *)
Definition newError (msg : string) : JsError :=
  mkJsError "Error" (Some msg) None None.

(** [Error.prototype.toString]. *)
Definition errorToString (e : JsError) : string :=
  let msg := match err_message e with Some m => m | None => "" end in
  if negb (truthy (err_name e)) then msg
  else if negb (truthy msg) then err_name e
  else err_name e ++ ": " ++ msg.

(** What the awaited service call does: it resolves with a response whose
    [text] may be undefined, or it rejects. *)
Inductive ServiceOutcome :=
| Resolved (text : option string)
| Rejected (error : JsError).

(** *** The regular expression [/<svg[\s\S]*?<\/svg>/i]

    Without the [u] flag, case-insensitive matching compares canonical
    (upper-cased) code units, and a code unit above 127 never
    canonicalises to an ASCII one: only the letters of the pattern and
    their capitals match. *)
Definition canonicalize (c : ascii) : ascii := upperChar c.

(** The literal [p] matches, ignoring case, at the start of [s]. *)
Fixpoint matchLiteral (p s : string) : bool :=
  match p, s with
  | EmptyString, _ => true
  | String _ _, EmptyString => false
  | String a p', String b s' =>
      Ascii.eqb (canonicalize a) (canonicalize b) && matchLiteral p' s'
  end.

(** [[\s\S]*?<\/svg>] at the start of [s]: the closing tag is tried
    first, and one more code unit is consumed only when it fails.  The
    result is the text consumed. *)
Fixpoint matchLazyClose (s : string) : option string :=
  if matchLiteral "</svg>" s then Some (take 6 s)
  else match s with
       | EmptyString => None
       | String c s' => option_map (String c) (matchLazyClose s')
       end.

(** The whole pattern anchored at the start of [s]. *)
Definition matchHere (s : string) : option string :=
  if matchLiteral "<svg" s
  then option_map (append (take 4 s)) (matchLazyClose (drop 4 s))
  else None.

(** [rawText.match(re)]: the start positions are tried from left to
    right; the result is [svgMatch[0]], or [None] for [null]. *)
Fixpoint regexMatch (s : string) : option string :=
  match matchHere s with
  | Some m => Some m
  | None =>
      match s with
      | EmptyString => None
      | String _ s' => regexMatch s'
      end
  end.

(** The three [replace] calls and the [trim]. *)
Definition cleanFences (rawText : string) : string :=
  trim (replaceAll "```" "" (replaceAll "```svg" "" (replaceAll "```xml" "" rawText))).

Definition noSvgError : JsError :=
  {| err_name := "Error";
     err_message := Some "Generation Format Error";
     err_details := Some "The model generated a response but no valid SVG code was found.";
     err_suggestion := Some "Try simplifying your prompt or selecting the 'Flat' style which is more consistent." |}.

(** The second attempt of the [try] block: the reply without its fence
    delimiters, when it shows both tag markers; otherwise [noSvgError] is
    thrown ([inl]). *)
Definition fromCleaned (rawText : string) : JsError + string :=
  let cleaned := cleanFences rawText in
  if includes cleaned "<svg" && includes cleaned "</svg>"
  then inr cleaned
  else inl noSvgError.

(** The statements of the [try] block after the service call: either the
    markup is returned ([inr]) or [noSvgError] is thrown ([inl]). *)
Definition interpret (rawText : string) : JsError + string :=
  match regexMatch rawText with
  | Some m0 => if truthy m0 then inr m0 else fromCleaned rawText
  | None => fromCleaned rawText
  end.

(** The classification of the [catch] block, for an error that is not
    rethrown: [customError] after its assignments. *)
Definition classify (error : JsError) : JsError :=
  let errorMsg := toLowerCase (optOrElse (err_message error) "") in
  if includes errorMsg "safety" || includes errorMsg "blocked" then
    {| err_name := "Error";
       err_message := Some "Content Flagged";
       err_details := Some "The request triggered the AI's safety filters.";
       err_suggestion := Some "Try rephrasing your prompt to be more abstract or removing sensitive keywords." |}
  else if includes errorMsg "429" || includes errorMsg "quota"
          || includes errorMsg "exhausted" then
    {| err_name := "Error";
       err_message := Some "System Overloaded";
       err_details := Some "API quota exceeded or system is currently busy.";
       err_suggestion := Some "Please wait a minute before trying again." |}
  else if includes errorMsg "400" || includes errorMsg "invalid argument" then
    {| err_name := "Error";
       err_message := Some "Invalid Request";
       err_details := Some "The model rejected the input, possibly due to image format or size.";
       err_suggestion := Some "Try using a smaller image (under 4MB) or a standard format like JPG/PNG." |}
  else if includes errorMsg "apikey" || includes errorMsg "403" then
    {| err_name := "Error";
       err_message := Some "Authentication Error";
       err_details := Some "There is an issue with the API key.";
       err_suggestion := Some "Please check your environment configuration." |}
  else
    {| err_name := "Error";
       err_message := Some "Connection Error";
       err_details := Some (optOrElse (err_message error) "An unexpected error occurred.");
       err_suggestion := Some "Check your internet connection or try again later." |}.

(** The [catch] block: an error with a truthy [suggestion] is rethrown
    as it is, any other is replaced by its classification. *)
Definition handleError (error : JsError) : JsError :=
  if truthyOpt (err_suggestion error) then error else classify error.

(** The [try] block, given the service. *)
Definition tryBlock (service : GenerateContentRequest -> ServiceOutcome)
    (prompt : string) (imagePart : option ImagePart) (style : string)
    (traceSettings : option TraceSettings) : JsError + string :=
  match service (composeRequest prompt imagePart style traceSettings) with
  | Rejected error => inl error
  | Resolved text => interpret (optOrElse text "")
  end.

(** [generateSvgFromPrompt]: [inr] is the resolved markup, [inl] the
    error the returned promise rejects with. *)
Definition generateSvgFromPrompt
    (service : GenerateContentRequest -> ServiceOutcome)
    (prompt : string) (imagePart : option ImagePart) (style : string)
    (traceSettings : option TraceSettings) : JsError + string :=
  match tryBlock service prompt imagePart style traceSettings with
  | inr svg => inr svg
  | inl error => inl (handleError error)
  end.

End GeminiService.
Import GeminiService.

(* ================================================================== *)
(** ** components/InputSection.tsx: the submit handler *)
(* ================================================================== *)

Module InputSection.

(** The component state [handleSubmit] closes over. *)
Record State := mkState {
  input : string;
  selectedImage : option ImageData;
  selectedStyle : SvgStyle;
  traceSettings : TraceSettings
}.

(** The initial values of the four [useState] hooks. *)
Definition initialState : State :=
  {| input := "";
     selectedImage := None;
     selectedStyle := Flat;
     traceSettings := mkTraceSettings Medium Limited Standard Round NoFill |}.

(** The arguments of one [onGenerate] invocation. *)
Record GenerateArgs := mkArgs {
  arg_prompt : string;
  arg_image : option ImageData;
  arg_style : SvgStyle;
  arg_traceSettings : option TraceSettings
}.

Definition isLoading (status : GenerationStatus) : bool :=
  match status with
  | LOADING => true
  | _ => false
  end.

Definition isSome {A : Type} (o : option A) : bool :=
  match o with
  | Some _ => true
  | None => false
  end.

Definition isAdvanced (style : SvgStyle) : bool :=
  match style with
  | VectorTrace | LineArt => true
  | _ => false
  end.

(** [handleSubmit], over any world [W] the callback [onGenerate] acts
    on.  ([e.preventDefault()] concerns the DOM event only.) *)
Definition handleSubmit {W : Type} (onGenerate : GenerateArgs -> W -> W)
    (st : State) (status : GenerationStatus) (w : W) : W :=
  if (truthy (trim (input st)) || isSome (selectedImage st))
     && negb (isLoading status)
  then
    onGenerate
      {| arg_prompt := trim (input st);
         arg_image := selectedImage st;
         arg_style := selectedStyle st;
         arg_traceSettings :=
           if isAdvanced (selectedStyle st)
           then Some (traceSettings st) else None |}
      w
  else w.

(** The constant [STYLES], in the order of the style selector. *)
Definition STYLES : list SvgStyle :=
  [VectorTrace; Flat; Material; LineArt; LowPoly; Minimalist; Isometric;
   Blueprint; Cyberpunk; Gradient; PixelArt; HandDrawn; PopArt; PaperCutout].

Record StyleGuide := mkStyleGuide {
  description : string;
  examples : list string
}.

(** The constant [STYLE_GUIDES], a [Record<SvgStyle, ...>]. *)
Definition STYLE_GUIDES (style : SvgStyle) : StyleGuide :=
  match style with
  | VectorTrace =>
      {| description := "Converts uploaded images into exact vector paths. Best used with an image attachment.";
         examples := ["Trace this logo exactly"; "Convert sketch to vector"; "Vectorize this icon"] |}
  | Flat =>
      {| description := "Clean, modern 2D illustrations with solid colors and no gradients.";
         examples := ["Flat design rocket ship"; "Minimalist forest landscape"; "Modern coffee cup icon"] |}
  | Material =>
      {| description := "Google's Material Design with subtle depth, shadows, and vibrant colors.";
         examples := ["Material design weather icon"; "Floating action button"; "Layered map marker"] |}
  | LineArt =>
      {| description := "Elegant monoline illustrations using only strokes. Great for coloring books.";
         examples := ["Continuous line portrait"; "Botanical flower illustration"; "Geometric mountain range"] |}
  | Minimalist =>
      {| description := "Stripped down to essential elements. Less is more.";
         examples := ["Minimalist corporate logo"; "Single shape cat"; "Abstract geometric composition"] |}
  | Isometric =>
      {| description := "3D perspective without vanishing points. Perfect for technical diagrams.";
         examples := ["Isometric data center"; "3D building block"; "Isometric office room"] |}
  | Blueprint =>
      {| description := "Technical architectural look with white lines on a blue background.";
         examples := ["Blueprint of an engine"; "House floor plan"; "Technical schematic of a robot"] |}
  | Cyberpunk =>
      {| description := "Futuristic aesthetic with neon colors, dark backgrounds, and glitch effects.";
         examples := ["Cyberpunk city skyline"; "Neon samurai helmet"; "Glitch art triangle"] |}
  | LowPoly =>
      {| description := "3D mesh style made of non-overlapping triangles.";
         examples := ["Low poly fox head"; "Geometric mountain landscape"; "Low poly heart 3d"] |}
  | PixelArt =>
      {| description := "Retro 8-bit or 16-bit aesthetic aligned to a grid.";
         examples := ["8-bit sword sprite"; "Pixel art burger"; "Retro game character"] |}
  | Gradient =>
      {| description := "Modern designs focusing on smooth color transitions and fluidity.";
         examples := ["Holographic gradient sphere"; "Fluid shape background"; "Sunset gradient logo"] |}
  | HandDrawn =>
      {| description := "Organic lines and imperfect shapes for a sketch-like feel.";
         examples := ["Sketchy notebook doodle"; "Hand drawn arrows set"; "Pencil sketch of a dog"] |}
  | PopArt =>
      {| description := "Bold outlines and vibrant colors inspired by comic books and Warhol.";
         examples := ["Pop art banana"; "Comic book explosion"; "Retro woman portrait"] |}
  | PaperCutout =>
      {| description := "Layered effect mimicking paper craft with drop shadows.";
         examples := ["Paper cutout forest"; "Layered topographic map"; "Paper craft flower"] |}
  end.

(** The state setters the handlers call. *)
Definition setInput (v : string) (st : State) : State :=
  {| input := v; selectedImage := selectedImage st;
     selectedStyle := selectedStyle st; traceSettings := traceSettings st |}.

Definition setSelectedImage (v : option ImageData) (st : State) : State :=
  {| input := input st; selectedImage := v;
     selectedStyle := selectedStyle st; traceSettings := traceSettings st |}.

Definition setSelectedStyle (v : SvgStyle) (st : State) : State :=
  {| input := input st; selectedImage := selectedImage st;
     selectedStyle := v; traceSettings := traceSettings st |}.

Definition setTraceSettings (f : TraceSettings -> TraceSettings)
    (st : State) : State :=
  {| input := input st; selectedImage := selectedImage st;
     selectedStyle := selectedStyle st;
     traceSettings := f (traceSettings st) |}.

(** The five [toggle] handlers: [setTraceSettings] with a spread of the
    previous settings and one field replaced. *)
Definition toggleComplexity (level : TraceComplexity) : State -> State :=
  setTraceSettings (fun prev =>
    mkTraceSettings level (colors prev) (strokeWeight prev)
      (lineCap prev) (lineFill prev)).

Definition toggleColors (mode : TraceColors) : State -> State :=
  setTraceSettings (fun prev =>
    mkTraceSettings (complexity prev) mode (strokeWeight prev)
      (lineCap prev) (lineFill prev)).

Definition toggleStrokeWeight (weight : TraceStrokeWeight) : State -> State :=
  setTraceSettings (fun prev =>
    mkTraceSettings (complexity prev) (colors prev) weight
      (lineCap prev) (lineFill prev)).

Definition toggleLineCap (cap : TraceLineCap) : State -> State :=
  setTraceSettings (fun prev =>
    mkTraceSettings (complexity prev) (colors prev) (strokeWeight prev)
      cap (lineFill prev)).

Definition toggleLineFill (fill : TraceLineFill) : State -> State :=
  setTraceSettings (fun prev =>
    mkTraceSettings (complexity prev) (colors prev) (strokeWeight prev)
      (lineCap prev) fill).

(** The object built in [reader.onloadend] from the type of the file and
    the result of the reader.  [None] stands for the object whose [data]
    is undefined because the result has no comma, which the interface
    [ImageData] excludes. *)
Definition imageDataOf (fileType result : string) : option ImageData :=
  match nth_error (split ","%char result) 1 with
  | Some base64Data =>
      Some {| data := base64Data; mimeType := fileType; previewUrl := result |}
  | None => None
  end.

(** [reader.onloadend], once the image object is built.  The handler
    closes over the [selectedStyle] of the render in which [processFile]
    ran, [captured], and acts on the state current when the read ends. *)
Definition onloadend (captured : SvgStyle) (img : ImageData)
    (st : State) : State :=
  let st1 := setSelectedImage (Some img) st in
  match captured with
  | Flat => setSelectedStyle VectorTrace st1
  | _ => st1
  end.

(** [processFile] with the read it starts, when no other event comes
    between the two: a file whose type does not start with [image/] is
    ignored.  [None] as for [imageDataOf]. *)
Definition processFile (fileType result : string) (st : State)
    : option State :=
  if negb (startsWith fileType "image/") then Some st
  else
    match imageDataOf fileType result with
    | Some img => Some (onloadend (selectedStyle st) img st)
    | None => None
    end.

(** [clearImage].  (The reset of the file input concerns the DOM only.) *)
Definition clearImage (st : State) : State :=
  let st1 := setSelectedImage None st in
  match selectedStyle st with
  | VectorTrace => setSelectedStyle Flat st1
  | _ => st1
  end.

(** The flags computed at each render. *)
Definition hasContent (st : State) : bool :=
  (0 <? String.length (trim (input st)))%nat || isSome (selectedImage st).

Definition showSettings (st : State) : bool :=
  match selectedStyle st with
  | VectorTrace | LineArt => true
  | _ => false
  end.

Definition isVectorTrace (st : State) : bool :=
  match selectedStyle st with
  | VectorTrace => true
  | _ => false
  end.

Definition isLineArt (st : State) : bool :=
  match selectedStyle st with
  | LineArt => true
  | _ => false
  end.

(** The [disabled] attribute of the submit button. *)
Definition submitDisabled (st : State) (status : GenerationStatus) : bool :=
  negb (hasContent st) || isLoading status.

(** The five groups of buttons of the settings toolbar, and the condition
    under which the markup renders each. *)
Inductive Control :=
| DetailControl | ColorsControl | FillControl | StrokeControl | CapsControl.

Definition controlShown (st : State) (c : Control) : bool :=
  showSettings st &&
  match c with
  | DetailControl | ColorsControl => isVectorTrace st
  | FillControl => isLineArt st
  | StrokeControl | CapsControl => true
  end.

End InputSection.

(* ================================================================== *)
(** ** App.tsx: the generation handler and the lifecycle it drives *)
(* ================================================================== *)

Module App.
Import InputSection.

(** The three [useState] cells of [App]. *)
Record State := mkState {
  status : GenerationStatus;
  currentSvg : option GeneratedSvg;
  error : option ApiError
}.

Definition initialState : State :=
  {| status := IDLE; currentSvg := None; error := None |}.

Definition setStatus (v : GenerationStatus) (st : State) : State :=
  {| status := v; currentSvg := currentSvg st; error := error st |}.

Definition setCurrentSvg (v : option GeneratedSvg) (st : State) : State :=
  {| status := status st; currentSvg := v; error := error st |}.

Definition setError (v : option ApiError) (st : State) : State :=
  {| status := status st; currentSvg := currentSvg st; error := v |}.

(** [handleGenerate] up to its [await]: the three setters. *)
Definition handleGenerate_begin (st : State) : State :=
  setCurrentSvg None (setError None (setStatus LOADING st)).

Definition imagePartOf (image : option ImageData) : option ImagePart :=
  match image with
  | Some img => Some {| inlineData_data := data img;
                        inlineData_mimeType := mimeType img |}
  | None => None
  end.

(** The object passed to [setError] in the [catch] block. *)
Definition apiErrorOf (err : JsError) : ApiError :=
  {| message := optOrElse (err_message err) "Generation Failed";
     details :=
       Some (orElse (optOrElse (err_details err) (errorToString err))
                    "An unexpected error occurred while contacting Gemini.");
     suggestion := err_suggestion err |}.

(** What the environment supplies while [handleGenerate] completes: the
    service, [crypto.randomUUID()] and [Date.now()]. *)
Record Env := mkEnv {
  service : GenerateContentRequest -> ServiceOutcome;
  randomUUID : string;
  now : Z
}.

(** [handleGenerate] from its [await] on. *)
Definition handleGenerate_resume (env : Env) (args : GenerateArgs)
    (st : State) : State :=
  match generateSvgFromPrompt (service env) (arg_prompt args)
          (imagePartOf (arg_image args)) (styleName (arg_style args))
          (arg_traceSettings args) with
  | inr svgContent =>
      let newSvg :=
        {| id := randomUUID env;
           content := svgContent;
           prompt := orElse (arg_prompt args)
                       (if isSome (arg_image args)
                        then "Image to SVG Conversion" else "Generated SVG");
           timestamp := now env |} in
      setStatus SUCCESS (setCurrentSvg (Some newSvg) st)
  | inl err =>
      setError (Some (apiErrorOf err)) (setStatus ERROR st)
  end.

(** The running application: the state of [App], the calls of
    [handleGenerate] that are suspended at their [await], and the [status]
    prop of the last render of [InputSection], which is the one the
    memoised [handleSubmit] closes over. *)
Record System := mkSystem {
  app : State;
  pending : list GenerateArgs;
  rendered : GenerationStatus
}.

Definition initialSystem : System :=
  {| app := initialState; pending := []; rendered := IDLE |}.

(** The [onGenerate] prop: a call of [handleGenerate], which runs to its
    [await] and suspends. *)
Definition onGenerate (args : GenerateArgs) (sys : System) : System :=
  {| app := handleGenerate_begin (app sys);
     pending := pending sys ++ [args];
     rendered := rendered sys |}.

(** A render: [InputSection] receives the status of [App]. *)
Definition render (sys : System) : System :=
  {| app := app sys;
     pending := pending sys;
     rendered := status (app sys) |}.

(** Removal of the [n]-th suspended call. *)
Fixpoint removeNth {A : Type} (n : nat) (l : list A) : list A :=
  match n, l with
  | _, [] => []
  | O, _ :: rest => rest
  | S k, x :: rest => x :: removeNth k rest
  end.

(** One event of the UI loop: a render, a submit of the form, or the
    settling of one suspended service call.  The handler of a submit reads
    the state of [InputSection] and the [status] prop of the last render,
    which is behind the status of [App] when no render came since the last
    change.  The state updates made while one event is handled take
    effect together. *)
Inductive step : System -> System -> Prop :=
| step_render (sys : System) :
    step sys (render sys)
| step_submit (ui : InputSection.State) (sys : System) :
    step sys (handleSubmit onGenerate ui (rendered sys) sys)
| step_settle (env : Env) (n : nat) (args : GenerateArgs) (sys : System) :
    nth_error (pending sys) n = Some args ->
    step sys {| app := handleGenerate_resume env args (app sys);
                pending := removeNth n (pending sys);
                rendered := rendered sys |}.

Inductive reachable : System -> Prop :=
| reachable_init : reachable initialSystem
| reachable_step (s s' : System) : reachable s -> step s s' -> reachable s'.

(** The events of a run in which every submit is handled on a render that
    shows the current status: a render came between each change of the
    status and the next submit. *)
Inductive stepOnCurrentRender : System -> System -> Prop :=
| current_render (sys : System) :
    stepOnCurrentRender sys (render sys)
| current_submit (ui : InputSection.State) (sys : System) :
    rendered sys = status (app sys) ->
    stepOnCurrentRender sys (handleSubmit onGenerate ui (rendered sys) sys)
| current_settle (env : Env) (n : nat) (args : GenerateArgs) (sys : System) :
    nth_error (pending sys) n = Some args ->
    stepOnCurrentRender sys
      {| app := handleGenerate_resume env args (app sys);
         pending := removeNth n (pending sys);
         rendered := rendered sys |}.

Inductive reachableOnCurrentRender : System -> Prop :=
| current_init : reachableOnCurrentRender initialSystem
| current_step (s s' : System) :
    reachableOnCurrentRender s -> stepOnCurrentRender s s' ->
    reachableOnCurrentRender s'.

(** What [App] renders below the input section: the error card, under
    [status === ERROR && error]; its tip, under [error.suggestion]; the
    preview, under [status === SUCCESS && currentSvg]; the placeholder,
    under [status === IDLE]. *)
Definition errorCard (st : State) : option ApiError :=
  match status st with
  | ERROR => error st
  | _ => None
  end.

Definition tipShown (e : ApiError) : bool := truthyOpt (suggestion e).

Definition preview (st : State) : option GeneratedSvg :=
  match status st with
  | SUCCESS => currentSvg st
  | _ => None
  end.

Definition placeholderShown (st : State) : bool :=
  match status st with
  | IDLE => true
  | _ => false
  end.

End App.
Import InputSection.
Import App.

(* ================================================================== *)
(** ** Vocabulary of the specification *)
(* ================================================================== *)

(** [m] occurs in [s] with [n] code units before it. *)
Definition OccursAt (m s : string) (n : nat) : Prop :=
  exists pre post, s = pre ++ m ++ post /\ String.length pre = n.

(** [p] is a substring of [s]. *)
Definition Contains (s p : string) : Prop :=
  exists n, OccursAt p s n.

(** Equality up to the case of ASCII letters. *)
Definition ciEq (a b : string) : Prop := toUpperCase a = toUpperCase b.

(** A span of markup: a start tag marker, any text, an end tag marker. *)
Definition SvgSpan (m : string) : Prop :=
  exists o body c,
    m = o ++ body ++ c /\ ciEq o "<svg" /\ ciEq c "</svg>".

Definition HasSvgSpan (raw : string) : Prop :=
  exists n m, SvgSpan m /\ OccursAt m raw n.

(** [m] is the first span of [raw]: no span starts before it, and no span
    starting where it starts is shorter. *)
Definition FirstSvgSpan (raw m : string) : Prop :=
  exists n,
    SvgSpan m /\ OccursAt m raw n /\
    forall n' m', SvgSpan m' -> OccursAt m' raw n' ->
      n < n' \/ (n = n' /\ String.length m <= String.length m').

(** *** The example of the interpreter *)

(** The reply and the markup of the specification's example. *)
Definition exampleReply : string :=
  "noise <svg viewBox=" ++ dq ++ "0 0 10 10" ++ dq ++ "><rect/></svg> trailing".

Definition exampleMarkup : string :=
  "<svg viewBox=" ++ dq ++ "0 0 10 10" ++ dq ++ "><rect/></svg>".

(** *** Temperature bands *)

(** The three bands of the specification. *)
Definition precisionStyles : list string :=
  ["Vector Trace"; "Blueprint"; "Pixel Art"; "Isometric"].

Definition balancedStyles : list string :=
  ["Flat"; "Material"; "Minimalist"; "Low Poly"].

Definition creativeStyles : list string :=
  ["Hand Drawn"; "Gradient"; "Cyberpunk"; "Pop Art"].

(** *** Style rules and settings directives *)

(** The styles that have no property in [instructions]. *)
Definition withoutOwnRule (s : SvgStyle) : bool :=
  match s with
  | Minimalist | Gradient | HandDrawn => true
  | _ => false
  end.

(** The five kinds of directive, in the order of the specification. *)
Inductive Directive := DComplexity | DColors | DFill | DStroke | DCap.

(** The kind of directive a line of the block is, read off its label. *)
Definition directiveOf (line : string) : option Directive :=
  if startsWith line "- SIMPLIFY PATHS:" || startsWith line "- HIGH FIDELITY:"
     || startsWith line "- BALANCED DETAIL:" then Some DComplexity
  else if startsWith line "- MONOCHROME:" || startsWith line "- LIMITED PALETTE:"
          || startsWith line "- FULL COLOR:" then Some DColors
  else if startsWith line "- FILL STYLE:" then Some DFill
  else if startsWith line "- STROKE WEIGHT:" then Some DStroke
  else if startsWith line "- STROKE LINECAP:" then Some DCap
  else None.

(** The lines of a text: the pieces between its line feeds. *)
Fixpoint splitLines (s : string) : list string :=
  match s with
  | EmptyString => [EmptyString]
  | String c s' =>
      if Ascii.eqb c "010"%char then EmptyString :: splitLines s'
      else match splitLines s' with
           | [] => [String c EmptyString]
           | l :: ls => String c l :: ls
           end
  end.

(** *** User instruction *)

Definition someImage : ImagePart :=
  {| inlineData_data := "aGVsbG8="; inlineData_mimeType := "image/png" |}.

(** The text a request interpolates where the prompt goes. *)
Definition interpolated (prompt : string) (imagePart : option ImagePart) : string :=
  match imagePart, prompt with
  | Some _, EmptyString => "Convert to SVG"
  | _, _ => prompt
  end.

(** *** Error classification *)

(** The text the rules of the [catch] block inspect. *)
Definition lowercasedMessage (error : JsError) : string :=
  toLowerCase (optOrElse (err_message error) "").

(** The classification the specification calls Overloaded. *)
Definition overloaded : JsError :=
  {| err_name := "Error";
     err_message := Some "System Overloaded";
     err_details := Some "API quota exceeded or system is currently busy.";
     err_suggestion := Some "Please wait a minute before trying again." |}.

(** An error whose message names the quota and the blocking of the
    request at once. *)
Definition blockedQuotaError : JsError :=
  newError "Request blocked: 429 Quota exceeded".

(** *** Submission *)

(** The submissions the specification rejects. *)
Definition submitRejected (ui : InputSection.State)
    (st : GenerationStatus) : Prop :=
  (trim (input ui) = "" /\ selectedImage ui = None) \/ st = LOADING.

(** A callback that records its invocations. *)
Definition recordCall (args : GenerateArgs) (log : list GenerateArgs)
    : list GenerateArgs :=
  log ++ [args].

(** *** Lifecycle *)

(** What holds of the running application between two events when every
    submit is handled on a render that shows the current status: the
    slots filled are those of the status, and a call is suspended exactly
    while the status is Loading. *)
Definition Inv (sys : System) : Prop :=
  match status (app sys) with
  | IDLE =>
      currentSvg (app sys) = None /\ error (app sys) = None /\
      pending sys = []
  | LOADING =>
      currentSvg (app sys) = None /\ error (app sys) = None /\
      exists args, pending sys = [args]
  | SUCCESS =>
      currentSvg (app sys) <> None /\ error (app sys) = None /\
      pending sys = []
  | ERROR =>
      currentSvg (app sys) = None /\ error (app sys) <> None /\
      pending sys = []
  end.

(** A run: the prompt [a red fox] is submitted in the Flat style and the
    service answers with markup. *)
Definition foxUi : InputSection.State :=
  {| input := " a red fox ";
     selectedImage := None;
     selectedStyle := Flat;
     traceSettings := mkTraceSettings Medium Limited Standard Round NoFill |}.

Definition foxEnv : Env :=
  {| service := fun _ => Resolved (Some "<svg viewBox='0 0 1 1'></svg>");
     randomUUID := "123e4567-e89b-42d3-a456-426614174000";
     now := 1700000000000%Z |}.

Definition foxSubmitted : System :=
  handleSubmit onGenerate foxUi (rendered initialSystem) initialSystem.

Definition foxSettled : System :=
  {| app := handleGenerate_resume foxEnv
              (mkArgs "a red fox" None Flat None) (app foxSubmitted);
     pending := removeNth 0 (pending foxSubmitted);
     rendered := rendered foxSubmitted |}.

(** *** Further vocabulary *)

(** [p] occurs in [s] up to the case of ASCII letters. *)
Definition ContainsCi (s p : string) : Prop :=
  exists q, Contains s q /\ ciEq q p.

(** The five classifications of the [catch] block, by their message. *)
Definition classifications : list string :=
  ["Content Flagged"; "System Overloaded"; "Invalid Request";
   "Authentication Error"; "Connection Error"].

(** The other classifications, as the [catch] block assigns them. *)
Definition contentFlagged : JsError :=
  {| err_name := "Error";
     err_message := Some "Content Flagged";
     err_details := Some "The request triggered the AI's safety filters.";
     err_suggestion := Some "Try rephrasing your prompt to be more abstract or removing sensitive keywords." |}.

Definition invalidRequest : JsError :=
  {| err_name := "Error";
     err_message := Some "Invalid Request";
     err_details := Some "The model rejected the input, possibly due to image format or size.";
     err_suggestion := Some "Try using a smaller image (under 4MB) or a standard format like JPG/PNG." |}.

Definition authenticationError : JsError :=
  {| err_name := "Error";
     err_message := Some "Authentication Error";
     err_details := Some "There is an issue with the API key.";
     err_suggestion := Some "Please check your environment configuration." |}.

(** The keywords the rules look for, in the order of the rules. *)
Definition classifierKeywords : list string :=
  ["safety"; "blocked"; "429"; "quota"; "exhausted"; "400";
   "invalid argument"; "apikey"; "403"].

(** The reply of the specification's fenced example, in three parts. *)
Definition fenceOpen : string := "```svg" ++ nl.
Definition fencedMarkup : string := "<svg>...</svg>".
Definition fenceClose : string := nl ++ "```".

(** What [App] renders below the input section, by status. *)
Definition Rendered (st : App.State) : Prop :=
  match status st with
  | IDLE =>
      placeholderShown st = true /\ preview st = None /\ errorCard st = None
  | LOADING =>
      placeholderShown st = false /\ preview st = None /\
      errorCard st = None
  | SUCCESS =>
      placeholderShown st = false /\ errorCard st = None /\
      exists svg,
        preview st = Some svg /\ prompt svg <> "" /\
        ContainsCi (content svg) "<svg" /\ ContainsCi (content svg) "</svg>"
  | ERROR =>
      placeholderShown st = false /\ preview st = None /\
      exists e d,
        errorCard st = Some e /\ message e <> "" /\
        details e = Some d /\ d <> "" /\ tipShown e = true
  end.


Definition alwaysDown : Env :=
  {| service := fun _ => Rejected (newError "Failed to fetch");
     randomUUID := "00000000-0000-4000-8000-000000000000";
     now := 0%Z |}.

(** The settings a submit of the form hands to the callback. *)
Definition settingsSent (ui : InputSection.State) : option TraceSettings :=
  if isAdvanced (selectedStyle ui) then Some (traceSettings ui) else None.

(** The request composed for a submit of the form. *)
Definition requestOf (ui : InputSection.State) : GenerateContentRequest :=
  composeRequest (trim (input ui)) (imagePartOf (selectedImage ui))
    (styleName (selectedStyle ui)) (settingsSent ui).

(** A form with a padded prompt in the Line Art style, and a form with
    nothing but spaces. *)
Definition paddedUi : InputSection.State :=
  {| input := "  a red fox ";
     selectedImage := None;
     selectedStyle := LineArt;
     traceSettings := mkTraceSettings Low Full Thin Butt Solid |}.

Definition blankUi : InputSection.State :=
  {| input := "   ";
     selectedImage := None;
     selectedStyle := Flat;
     traceSettings := mkTraceSettings Medium Limited Standard Round NoFill |}.

(** An uploaded picture. *)
Definition pngImage : ImageData :=
  {| data := "aGVsbG8=";
     mimeType := "image/png";
     previewUrl := "data:image/png;base64,aGVsbG8=" |}.

(** The directive each control of the toolbar stands for, and the field
    of the settings it sets. *)
Definition controlDirective (c : Control) : Directive :=
  match c with
  | DetailControl => DComplexity
  | ColorsControl => DColors
  | FillControl => DFill
  | StrokeControl => DStroke
  | CapsControl => DCap
  end.

Definition sameField (c : Control) (a b : TraceSettings) : Prop :=
  match c with
  | DetailControl => complexity a = complexity b
  | ColorsControl => colors a = colors b
  | FillControl => lineFill a = lineFill b
  | StrokeControl => strokeWeight a = strokeWeight b
  | CapsControl => lineCap a = lineCap b
  end.

(** The style rules of the request composed for a submit of the form. *)
Definition instructionsOf (ui : InputSection.State) : string :=
  getStyleInstructions (styleName (selectedStyle ui)) (settingsSent ui).

(** All the values of the settings. *)
Definition allTraceSettings : list TraceSettings :=
  flat_map (fun cx =>
  flat_map (fun co =>
  flat_map (fun sw =>
  flat_map (fun lc =>
  map (fun lf => mkTraceSettings cx co sw lc lf) [NoFill; Solid])
    [Butt; Round; Square])
    [Thin; Standard; Thick])
    [Monochrome; Limited; Full])
    [Low; Medium; High].

(** A number for the value of the field a control sets. *)
Definition fieldIndex (c : Control) (ts : TraceSettings) : nat :=
  match c with
  | DetailControl =>
      match complexity ts with Low => 0 | Medium => 1 | High => 2 end
  | ColorsControl =>
      match colors ts with Monochrome => 0 | Limited => 1 | Full => 2 end
  | FillControl =>
      match lineFill ts with NoFill => 0 | Solid => 1 end
  | StrokeControl =>
      match strokeWeight ts with Thin => 0 | Standard => 1 | Thick => 2 end
  | CapsControl =>
      match lineCap ts with Butt => 0 | Round => 1 | Square => 2 end
  end.

Definition allControls : list Control :=
  [DetailControl; ColorsControl; FillControl; StrokeControl; CapsControl].

(** Two values of the settings agree on the controls shown for a style. *)
Definition agreeOnShown (style : SvgStyle) (a b : TraceSettings) : bool :=
  forallb (fun c =>
    implb (controlShown (InputSection.mkState "" None style a) c)
          (fieldIndex c a =? fieldIndex c b)%nat) allControls.

(** The settings blocks of an advanced style, one per value of the
    settings, tell apart any two values that differ on a control shown,
    and no others. *)
Definition blocksTellApart (style : SvgStyle) : bool :=
  let blocks :=
    map (fun a => (a, settingsRefinement (styleName style) a))
      allTraceSettings in
  forallb (fun x =>
    forallb (fun y =>
      Bool.eqb (snd x =? snd y) (agreeOnShown style (fst x) (fst y)))
      blocks)
    blocks.

(** An error of the service that brings its own suggestion and no
    details. *)
Definition advisedError : JsError :=
  {| err_name := "ApiError";
     err_message := Some "Model is warming up";
     err_details := None;
     err_suggestion := Some "Retry in a few seconds." |}.

(** What holds of the running application between two events in every
    run: neither slot is filled while Idle or Loading, the slot of the
    status is filled in Success and in Error, and a call is suspended while
    the status is Loading. *)
Definition Slots (sys : System) : Prop :=
  match status (app sys) with
  | IDLE =>
      currentSvg (app sys) = None /\ error (app sys) = None
  | LOADING =>
      currentSvg (app sys) = None /\ error (app sys) = None /\
      pending sys <> []
  | SUCCESS => currentSvg (app sys) <> None
  | ERROR => error (app sys) <> None
  end.

(** A run with two submits on one render: the form is submitted twice
    before any render, the first call fails and the second is answered
    with markup. *)
Definition raceSubmittedTwice : System :=
  handleSubmit onGenerate foxUi (rendered foxSubmitted) foxSubmitted.

Definition raceFirstFailed : System :=
  {| app := handleGenerate_resume alwaysDown
              (mkArgs "a red fox" None Flat None) (app raceSubmittedTwice);
     pending := removeNth 0 (pending raceSubmittedTwice);
     rendered := rendered raceSubmittedTwice |}.

Definition raceBothSettled : System :=
  {| app := handleGenerate_resume foxEnv
              (mkArgs "a red fox" None Flat None) (app raceFirstFailed);
     pending := removeNth 0 (pending raceFirstFailed);
     rendered := rendered raceFirstFailed |}.

(* ================================================================== *)
(** ** Facts about strings *)
(* ================================================================== *)

Section StringFacts.

Lemma append_assoc (a b c : string) : (a ++ b) ++ c = a ++ (b ++ c).
Proof.
  induction a as [|x a IH]; simpl; [reflexivity | now rewrite IH].
Qed.

Lemma length_append (a b : string) :
  String.length (a ++ b) = String.length a + String.length b.
Proof.
  induction a as [|x a IH]; simpl; [reflexivity | now rewrite IH].
Qed.

Lemma take_append (a b : string) : take (String.length a) (a ++ b) = a.
Proof.
  induction a as [|x a IH]; simpl; [now destruct b | now rewrite IH].
Qed.

Lemma drop_append (a b : string) : drop (String.length a) (a ++ b) = b.
Proof.
  induction a as [|x a IH]; simpl; [reflexivity | exact IH].
Qed.

(** Two splits of one string at the same position are the same split. *)
Lemma append_inj (a b a' b' : string) :
  a ++ b = a' ++ b' -> String.length a = String.length a' ->
  a = a' /\ b = b'.
Proof.
  revert a'; induction a as [|x a IH]; intros [|x' a']; simpl;
    intros E L; try discriminate.
  - now split.
  - injection E as -> E. injection L as L.
    destruct (IH _ E L) as [-> ->]. now split.
Qed.

Lemma length_toUpperCase (s : string) :
  String.length (toUpperCase s) = String.length s.
Proof.
  induction s as [|c s IH]; simpl; [reflexivity | now rewrite IH].
Qed.

Lemma ciEq_length (a b : string) :
  ciEq a b -> String.length a = String.length b.
Proof.
  unfold ciEq; intros E.
  rewrite <- (length_toUpperCase a), <- (length_toUpperCase b).
  now rewrite E.
Qed.

(** [matchLiteral] decides that a prefix equals the literal up to case. *)
Lemma matchLiteral_true (p s : string) :
  matchLiteral p s = true <->
  exists o rest, s = o ++ rest /\ ciEq o p.
Proof.
  revert s; induction p as [|a p IH]; intros s; simpl.
  - split; [intros _; now exists "", s | reflexivity].
  - destruct s as [|b s].
    + split; [discriminate |].
      intros ([|x o] & rest & E & C); [discriminate C | discriminate E].
    + rewrite andb_true_iff, Ascii.eqb_eq, IH. unfold canonicalize.
      split.
      * intros (Hc & o & rest & -> & C).
        exists (String b o), rest. split; [reflexivity |].
        unfold ciEq in *; simpl. now rewrite C, Hc.
      * intros ([|x o] & rest & E & C); [discriminate C |].
        simpl in E. injection E as -> ->.
        unfold ciEq in C; simpl in C. injection C as Hc C.
        split; [now symmetry | now exists o, rest].
Qed.

Lemma matchLiteral_false (p s o rest : string) :
  matchLiteral p s = false -> s = o ++ rest -> ciEq o p -> False.
Proof.
  intros F E C.
  assert (T : matchLiteral p s = true)
    by (apply matchLiteral_true; now exists o, rest).
  congruence.
Qed.

End StringFacts.

(* ================================================================== *)
(** ** The regular expression finds the first span *)
(* ================================================================== *)

Section RegexFacts.

Lemma matchLazyClose_eq (s : string) :
  matchLazyClose s =
  if matchLiteral "</svg>" s then Some (take 6 s)
  else match s with
       | EmptyString => None
       | String c s' => option_map (String c) (matchLazyClose s')
       end.
Proof. destruct s; reflexivity. Qed.

Lemma regexMatch_eq (s : string) :
  regexMatch s =
  match matchHere s with
  | Some m => Some m
  | None => match s with
            | EmptyString => None
            | String _ s' => regexMatch s'
            end
  end.
Proof. destruct s; reflexivity. Qed.

(** What [matchLazyClose] consumes ends with the first end tag marker. *)
Lemma matchLazyClose_sound (s t : string) :
  matchLazyClose s = Some t ->
  exists body c rest,
    t = body ++ c /\ s = t ++ rest /\ ciEq c "</svg>" /\
    forall body' c' rest',
      s = body' ++ c' ++ rest' -> ciEq c' "</svg>" ->
      String.length body <= String.length body'.
Proof.
  revert t; induction s as [|x s IH]; intros t; rewrite matchLazyClose_eq.
  - discriminate.
  - destruct (matchLiteral "</svg>" (String x s)) eqn:L.
    + intros Ht.
      assert (Et : take 6 (String x s) = t) by congruence.
      subst t; clear Ht.
      apply matchLiteral_true in L. destruct L as (o & rest & E & C).
      pose proof (ciEq_length _ _ C) as Len. simpl in Len.
      exists "", o, rest.
      rewrite E, <- Len, take_append.
      repeat split; auto. intros; simpl; lia.
    + destruct (matchLazyClose s) as [t'|] eqn:M; simpl; [|discriminate].
      intros [= <-].
      destruct (IH _ eq_refl) as (body & c & rest & -> & Es & C & Min).
      exists (String x body), c, rest.
      repeat split; auto.
      * simpl. now rewrite <- Es.
      * intros [|y body'] c' rest' E' C'.
        -- exfalso. simpl in E'. eapply matchLiteral_false; eauto.
        -- simpl in E'. injection E' as _ E'.
           simpl. apply le_n_S. eapply Min; eauto.
Qed.

Lemma matchLazyClose_complete (body c rest : string) :
  ciEq c "</svg>" ->
  exists t, matchLazyClose (body ++ c ++ rest) = Some t.
Proof.
  intros C. induction body as [|x body [t IH]]; rewrite matchLazyClose_eq.
  - assert (L : matchLiteral "</svg>" (c ++ rest) = true)
      by (apply matchLiteral_true; now exists c, rest).
    simpl append. rewrite L. eauto.
  - destruct (matchLiteral "</svg>" (String x body ++ c ++ rest)); [eauto|].
    simpl. rewrite IH. simpl. eauto.
Qed.

Lemma SvgSpan_length (m o body c : string) :
  m = o ++ body ++ c -> ciEq o "<svg" -> ciEq c "</svg>" ->
  String.length o = 4 /\ String.length m = 4 + String.length body + 6.
Proof.
  intros -> Co Cc.
  apply ciEq_length in Co, Cc. simpl in Co, Cc.
  rewrite !length_append. lia.
Qed.

(** A match anchored at the start of [s] is the shortest span there. *)
Lemma matchHere_sound (s m : string) :
  matchHere s = Some m ->
  SvgSpan m /\
  exists post,
    s = m ++ post /\
    forall m' post', SvgSpan m' -> s = m' ++ post' ->
      String.length m <= String.length m'.
Proof.
  unfold matchHere.
  destruct (matchLiteral "<svg" s) eqn:L; [|discriminate].
  apply matchLiteral_true in L. destruct L as (o & r & -> & Co).
  pose proof (ciEq_length _ _ Co) as Lo. simpl in Lo.
  rewrite <- Lo, take_append, drop_append.
  destruct (matchLazyClose r) as [t|] eqn:M; simpl; [|discriminate].
  intros [= <-].
  destruct (matchLazyClose_sound _ _ M) as (body & c & rest & -> & Er & Cc & Min).
  split; [now exists o, body, c |].
  exists rest. split.
  - rewrite Er at 1. now rewrite !append_assoc.
  - intros m' post' (o' & body' & c' & Em' & Co' & Cc') E.
    destruct (SvgSpan_length _ _ _ _ Em' Co' Cc') as [Lo' Lm'].
    destruct (SvgSpan_length (o ++ body ++ c) o body c eq_refl Co Cc)
      as [_ Lm].
    rewrite Lm, Lm'.
    subst m'. rewrite !append_assoc in E.
    apply append_inj in E; [|lia]. destruct E as [_ E].
    specialize (Min body' c' post' E Cc'). lia.
Qed.

Lemma matchHere_complete (m post : string) :
  SvgSpan m -> exists m0, matchHere (m ++ post) = Some m0.
Proof.
  intros (o & body & c & -> & Co & Cc).
  unfold matchHere. rewrite !append_assoc.
  assert (L : matchLiteral "<svg" (o ++ body ++ c ++ post) = true)
    by (apply matchLiteral_true; eauto).
  rewrite L.
  pose proof (ciEq_length _ _ Co) as Lo. simpl in Lo.
  rewrite <- Lo, take_append, drop_append.
  destruct (matchLazyClose_complete body c post Cc) as [t ->].
  simpl. eauto.
Qed.

(** The search returns a match at the leftmost position that has one. *)
Lemma regexMatch_sound (s m : string) :
  regexMatch s = Some m ->
  exists pre post,
    s = pre ++ m ++ post /\ matchHere (m ++ post) = Some m /\
    forall pre' rest',
      s = pre' ++ rest' -> String.length pre' < String.length pre ->
      matchHere rest' = None.
Proof.
  revert m; induction s as [|x s IH]; intros m; rewrite regexMatch_eq.
  - destruct (matchHere "") as [m0|] eqn:H; [|discriminate].
    intros [= <-].
    destruct (matchHere_sound _ _ H) as (_ & post & E & _).
    exists "", post. simpl. rewrite <- E. repeat split; auto.
    simpl; intros; lia.
  - destruct (matchHere (String x s)) as [m0|] eqn:H.
    + intros [= <-].
      destruct (matchHere_sound _ _ H) as (_ & post & E & _).
      exists "", post. simpl. rewrite <- E. repeat split; auto.
      simpl; intros; lia.
    + intros R. destruct (IH _ R) as (pre & post & E & Hm & Left).
      exists (String x pre), post. simpl. rewrite <- E.
      repeat split; auto.
      intros [|y pre'] rest' E' Lt.
      * simpl in E'. now rewrite <- E'.
      * simpl in E', Lt. injection E' as _ E'.
        apply (Left pre' rest' E'). lia.
Qed.

Lemma regexMatch_complete (pre rest m : string) :
  matchHere rest = Some m ->
  exists m0, regexMatch (pre ++ rest) = Some m0.
Proof.
  intros H. induction pre as [|x pre [m0 IH]]; rewrite regexMatch_eq.
  - simpl append. rewrite H. eauto.
  - destruct (matchHere (String x pre ++ rest)); [eauto|].
    simpl. eauto.
Qed.

(** The search succeeds exactly on the texts that have a span, and what
    it returns is the first one. *)
Lemma regexMatch_first (raw : string) :
  HasSvgSpan raw ->
  exists m, regexMatch raw = Some m /\ FirstSvgSpan raw m.
Proof.
  intros (n0 & m0 & S0 & pre0 & post0 & E0 & _).
  destruct (matchHere_complete m0 post0 S0) as [m1 H1].
  destruct (regexMatch_complete pre0 _ _ H1) as [m R].
  rewrite <- E0 in R.
  exists m. split; [exact R |].
  destruct (regexMatch_sound _ _ R) as (pre & post & E & Hm & Left).
  destruct (matchHere_sound _ _ Hm) as (Sm & post1 & E1 & Min).
  exists (String.length pre). split; [exact Sm |].
  split; [now exists pre, post |].
  intros n' m' S' (pre' & post' & E' & <-).
  destruct (Nat.lt_trichotomy (String.length pre) (String.length pre'))
    as [Lt | [Eq | Gt]].
  - now left.
  - right. split; [exact Eq |].
    rewrite E in E'. apply append_inj in E'; [|exact Eq].
    destruct E' as [_ E']. eapply Min; eauto.
  - exfalso.
    specialize (Left pre' _ E' Gt).
    destruct (matchHere_complete m' post' S') as [m2 H2].
    congruence.
Qed.

Lemma regexMatch_none (raw : string) :
  ~ HasSvgSpan raw -> regexMatch raw = None.
Proof.
  intros N. destruct (regexMatch raw) as [m|] eqn:R; [|reflexivity].
  exfalso. apply N.
  destruct (regexMatch_sound _ _ R) as (pre & post & E & Hm & _).
  destruct (matchHere_sound _ _ Hm) as (Sm & _).
  exists (String.length pre), m. split; [exact Sm |].
  now exists pre, post.
Qed.

(** The first span of a text is unique. *)
Lemma FirstSvgSpan_unique (raw m1 m2 : string) :
  FirstSvgSpan raw m1 -> FirstSvgSpan raw m2 -> m1 = m2.
Proof.
  intros (n1 & S1 & O1 & F1) (n2 & S2 & O2 & F2).
  destruct (F1 _ _ S2 O2) as [L1 | [E1 Le1]];
    destruct (F2 _ _ S1 O1) as [L2 | [E2 Le2]]; try lia.
  subst n2.
  destruct O1 as (pre1 & post1 & Ea & La), O2 as (pre2 & post2 & Eb & Lb).
  rewrite Ea in Eb. apply append_inj in Eb; [|lia].
  destruct Eb as [_ Eb].
  apply append_inj in Eb; [tauto | lia].
Qed.

Lemma SvgSpan_truthy (m : string) : SvgSpan m -> truthy m = true.
Proof.
  intros (o & body & c & -> & Co & _).
  apply ciEq_length in Co. destruct o; [discriminate Co | reflexivity].
Qed.

End RegexFacts.

(* ================================================================== *)
(** ** [includes] decides [Contains] *)
(* ================================================================== *)

Section IncludesFacts.

Lemma startsWith_true (s p : string) :
  startsWith s p = true <-> exists rest, s = p ++ rest.
Proof.
  revert s; induction p as [|a p IH]; intros [|b s]; simpl.
  - split; [intros _; now exists "" | reflexivity].
  - split; [intros _; now exists (String b s) | reflexivity].
  - split; [discriminate | intros [rest E]; discriminate E].
  - rewrite andb_true_iff, Ascii.eqb_eq, IH. split.
    + intros (-> & rest & ->). now exists rest.
    + intros [rest E]. injection E as -> ->. split; eauto.
Qed.

Lemma includes_true (s p : string) :
  includes s p = true <-> Contains s p.
Proof.
  unfold Contains, OccursAt. induction s as [|x s IH].
  - change (includes "" p) with (startsWith "" p || false).
    rewrite orb_false_r, startsWith_true. split.
    + intros [rest E]. exists 0, "", rest. now split.
    + intros (n & [|y pre] & post & E & _); [eauto | discriminate E].
  - change (includes (String x s) p)
      with (startsWith (String x s) p || includes s p).
    rewrite orb_true_iff, IH, startsWith_true. split.
    + intros [[rest E] | (n & pre & post & E & L)].
      * exists 0, "", rest. now split.
      * exists (S n), (String x pre), post. simpl. now rewrite E, L.
    + intros (n & [|y pre] & post & E & L).
      * left. now exists post.
      * right. simpl in E. injection E as _ E.
        exists (String.length pre), pre, post. now split.
Qed.

Lemma includes_false (s p : string) :
  includes s p = false <-> ~ Contains s p.
Proof.
  rewrite <- includes_true. destruct (includes s p); split;
    congruence.
Qed.

(** A substring of a substring is a substring. *)
Lemma Contains_trans (s p q : string) :
  Contains s p -> Contains p q -> Contains s q.
Proof.
  intros (n & pre & post & -> & _) (k & pre' & post' & -> & _).
  exists (String.length (pre ++ pre')), (pre ++ pre'), (post' ++ post).
  split; [|reflexivity]. now rewrite !append_assoc.
Qed.

Lemma truthy_false (s : string) : truthy s = false <-> s = "".
Proof. destruct s; simpl; split; congruence. Qed.

End IncludesFacts.

(* ================================================================== *)
(** ** Response interpreter *)
(* ================================================================== *)

(** C1.  Whenever the raw reply contains a span that opens with a start tag
    marker and closes with an end tag marker (case ignored), [interpret]
    returns the first such span: the leftmost one and, there, the shortest.
    [generateSvgFromPrompt] resolves with it whenever the service resolves
    with that reply. *)
Theorem interpret_returns_first_svg_span (raw : string) :
  HasSvgSpan raw ->
  exists m,
    interpret raw = inr m /\ FirstSvgSpan raw m /\
    forall service prompt imagePart style traceSettings,
      service (composeRequest prompt imagePart style traceSettings)
        = Resolved (Some raw) ->
      generateSvgFromPrompt service prompt imagePart style traceSettings
        = inr m.
Proof.
  intros H. destruct (regexMatch_first raw H) as (m & R & F).
  assert (T : truthy m = true)
    by (destruct F as (n & S & _); now apply SvgSpan_truthy).
  assert (I : interpret raw = inr m)
    by (unfold interpret; now rewrite R, T).
  exists m. repeat split; auto.
  intros service prompt imagePart style traceSettings Hs.
  unfold generateSvgFromPrompt, tryBlock. rewrite Hs.
  assert (O : optOrElse (Some raw) "" = raw).
  { unfold optOrElse, orElse. destruct raw; [|reflexivity].
    unfold interpret in I. simpl in I. discriminate I. }
  now rewrite O, I.
Qed.

(** The example of the specification: on the reply
    [noise <svg viewBox=...><rect/></svg> trailing] the interpreter returns
    exactly the markup between the two words. *)
Lemma interpret_example :
  HasSvgSpan exampleReply /\
  interpret exampleReply = inr exampleMarkup /\
  FirstSvgSpan exampleReply exampleMarkup.
Proof.
  assert (H : HasSvgSpan exampleReply).
  { exists 6, exampleMarkup. split.
    - exists "<svg",
        (" viewBox=" ++ dq ++ "0 0 10 10" ++ dq ++ "><rect/>"), "</svg>".
      repeat split; reflexivity.
    - exists "noise ", " trailing". split; reflexivity. }
  split; [exact H |].
  destruct (interpret_returns_first_svg_span exampleReply H)
    as (m & I & F & _).
  assert (E : m = exampleMarkup).
  { pose proof I as I'. vm_compute in I'. injection I' as I'.
    rewrite <- I'. reflexivity. }
  rewrite <- E. split; assumption.
Defined.

(** C4.  When the reply has no span and the text left after removing the
    fence delimiters and trimming does not contain both tag markers, the
    interpreter throws the format error, whose three texts are fixed and
    whose suggestion is not empty; the [catch] block rethrows it as it is,
    so [generateSvgFromPrompt] rejects with that very error. *)
Theorem interpret_format_error (raw : string) :
  ~ HasSvgSpan raw ->
  ~ (Contains (cleanFences raw) "<svg" /\ Contains (cleanFences raw) "</svg>") ->
  interpret raw = inl noSvgError /\
  handleError noSvgError = noSvgError /\
  (forall service prompt imagePart style traceSettings text,
     service (composeRequest prompt imagePart style traceSettings)
       = Resolved text ->
     optOrElse text "" = raw ->
     generateSvgFromPrompt service prompt imagePart style traceSettings
       = inl noSvgError) /\
  err_message noSvgError = Some "Generation Format Error" /\
  err_details noSvgError =
    Some "The model generated a response but no valid SVG code was found." /\
  err_suggestion noSvgError =
    Some "Try simplifying your prompt or selecting the 'Flat' style which is more consistent." /\
  truthyOpt (err_suggestion noSvgError) = true.
Proof.
  intros NoSpan NoMarkers.
  assert (I : interpret raw = inl noSvgError).
  { unfold interpret, fromCleaned. rewrite (regexMatch_none raw NoSpan).
    cbv zeta. destruct (includes (cleanFences raw) "<svg") eqn:A;
      destruct (includes (cleanFences raw) "</svg>") eqn:B;
      try reflexivity.
    exfalso. apply NoMarkers. now rewrite <- !includes_true. }
  repeat split; auto.
  intros service prompt imagePart style traceSettings text Hs Ht.
  unfold generateSvgFromPrompt, tryBlock. now rewrite Hs, Ht, I.
Qed.

Lemma interpret_format_error_witness :
  interpret "no markup here" = inl noSvgError /\
  truthyOpt (err_suggestion noSvgError) = true.
Proof.
  assert (NoSpan : ~ HasSvgSpan "no markup here").
  { intros H. destruct (regexMatch_first _ H) as (m & R & _).
    vm_compute in R. discriminate R. }
  assert (NoMarkers :
    ~ (Contains (cleanFences "no markup here") "<svg" /\
       Contains (cleanFences "no markup here") "</svg>")).
  { intros [A _]. apply includes_true in A. vm_compute in A. discriminate A. }
  destruct (interpret_format_error _ NoSpan NoMarkers)
    as (I & _ & _ & _ & _ & _ & T).
  split; assumption.
Defined.

(* ================================================================== *)
(** ** Request composer: temperature *)
(* ================================================================== *)

Ltac split_eqb :=
  repeat match goal with
    | |- context [String.eqb ?a ?b] =>
        destruct (String.eqb_spec a b); simpl; try subst
    end.

(** C3.  [getTemperatureForStyle] is a lookup: 0.15 on the precision
    styles, 0.3 on the balanced ones, 0.6 on the creative ones, and 0.4 on
    every other string, among them Line Art and Paper Cutout. *)
Theorem getTemperatureForStyle_bands (style : string) :
  (In style precisionStyles -> getTemperatureForStyle style = 0.15%Q) /\
  (In style balancedStyles -> getTemperatureForStyle style = 0.3%Q) /\
  (In style creativeStyles -> getTemperatureForStyle style = 0.6%Q) /\
  (~ In style (precisionStyles ++ balancedStyles ++ creativeStyles) ->
   getTemperatureForStyle style = 0.4%Q) /\
  getTemperatureForStyle (styleName LineArt) = 0.4%Q /\
  getTemperatureForStyle (styleName PaperCutout) = 0.4%Q.
Proof.
  repeat split; try reflexivity.
  - simpl; intros H; repeat (destruct H as [<- | H]; [reflexivity |]);
      contradiction.
  - simpl; intros H; repeat (destruct H as [<- | H]; [reflexivity |]);
      contradiction.
  - simpl; intros H; repeat (destruct H as [<- | H]; [reflexivity |]);
      contradiction.
  - intros N. unfold getTemperatureForStyle.
    split_eqb; try reflexivity; exfalso; apply N; simpl; tauto.
Qed.

Lemma getTemperatureForStyle_bands_witness :
  getTemperatureForStyle "Blueprint" = 0.15%Q /\
  getTemperatureForStyle "Low Poly" = 0.3%Q /\
  getTemperatureForStyle "Gradient" = 0.6%Q /\
  getTemperatureForStyle "Watercolor" = 0.4%Q.
Proof.
  split; [| split; [| split]].
  - destruct (getTemperatureForStyle_bands "Blueprint") as (H & _).
    apply H. simpl; tauto.
  - destruct (getTemperatureForStyle_bands "Low Poly") as (_ & H & _).
    apply H. simpl; tauto.
  - destruct (getTemperatureForStyle_bands "Gradient") as (_ & _ & H & _).
    apply H. simpl; tauto.
  - destruct (getTemperatureForStyle_bands "Watercolor")
      as (_ & _ & _ & H & _).
    apply H. simpl. intros N.
    repeat (destruct N as [N | N]; [discriminate N |]). exact N.
Defined.

(* ================================================================== *)
(** ** Request composer: style instructions *)
(* ================================================================== *)

(** C2, as the code has it.  Minimalist has no entry in the table: its
    rule is the generic one. *)
Lemma getStyleInstructions_minimalist_generic :
  lookup (styleName Minimalist) instructions = None /\
  getStyleInstructions (styleName Minimalist) None
    = "Goal: High quality vector art.".
Proof. split; reflexivity. Qed.

(** C2, amended.  Eleven of the fourteen styles have a rule of their own in
    the table, and the assembly starts with it; for Minimalist, Gradient
    and Hand Drawn the lookup finds nothing and the assembly is the generic
    rule.  The eleven rules are pairwise distinct and none is the generic
    one. *)
Theorem getStyleInstructions_rule (style : SvgStyle) :
  (if withoutOwnRule style
   then lookup (styleName style) instructions = None /\
        forall ts, getStyleInstructions (styleName style) ts = genericRule
   else exists rule,
        In (styleName style, rule) instructions /\
        rule <> genericRule /\
        startsWith rule "Goal: " = true /\
        getStyleInstructions (styleName style) None = rule /\
        forall ts, startsWith (getStyleInstructions (styleName style) ts) rule
                   = true) /\
  NoDup (map fst instructions) /\
  NoDup (map snd instructions) /\
  List.length instructions = 11.
Proof.
  split; [| repeat split].
  - destruct style; cbn [withoutOwnRule];
      try (split; [reflexivity | intros [ts|]; reflexivity]);
      (eexists; split;
       [ unfold instructions; simpl; eauto 15
       | split; [ discriminate
         | split; [ reflexivity
           | split; [ reflexivity
             | intros [[[] [] [] [] []]|]; vm_compute; reflexivity ] ] ] ]).
  - repeat constructor; simpl; intros H;
      repeat (destruct H as [H | H]; [discriminate H |]); exact H.
  - repeat constructor; simpl; intros H;
      repeat (destruct H as [H | H]; [discriminate H |]); exact H.
Qed.

(* ================================================================== *)
(** ** Request composer: the settings block *)
(* ================================================================== *)

(** C5.  With settings supplied, the block appended for Vector Trace is
    the header followed by the complexity, colors, stroke weight and line
    cap directives, and the block appended for Line Art is the header
    followed by the fill, stroke weight and line cap directives, in that
    order.  Read line by line, the block is an empty piece (it starts with
    a line feed), the header, and then exactly those directives: nothing
    stands for a field that does not apply. *)
Theorem settingsRefinement_order (ts : TraceSettings) :
  (settingsRefinement "Vector Trace" ts =
     nl ++ "VECTOR TRACE SETTINGS:"
       ++ complexityRule (complexity ts) ++ colorRule (colors ts)
       ++ strokeWeightRule (strokeWeight ts) ++ lineCapRule (lineCap ts)) /\
  (settingsRefinement "Line Art" ts =
     nl ++ "LINE ART SETTINGS:"
       ++ fillRule (lineFill ts)
       ++ strokeWeightRule (strokeWeight ts) ++ lineCapRule (lineCap ts)) /\
  map directiveOf (splitLines (settingsRefinement "Vector Trace" ts)) =
    [None; None; Some DComplexity; Some DColors; Some DStroke; Some DCap] /\
  map directiveOf (splitLines (settingsRefinement "Line Art" ts)) =
    [None; None; Some DFill; Some DStroke; Some DCap] /\
  getStyleInstructions "Vector Trace" (Some ts) =
    getStyleInstructions "Vector Trace" None
      ++ settingsRefinement "Vector Trace" ts /\
  getStyleInstructions "Line Art" (Some ts) =
    getStyleInstructions "Line Art" None ++ settingsRefinement "Line Art" ts.
Proof.
  destruct ts as [[] [] [] [] []]; repeat split; vm_compute; reflexivity.
Qed.

(* ================================================================== *)
(** ** Request composer: the user instruction *)
(* ================================================================== *)

(** C6, as the code has it.  With an image attached and the empty prompt
    the text interpolated is not the prompt but [Convert to SVG]; so no
    fixed text around the prompt describes the multimodal instruction. *)
Lemma userPrompt_empty_prompt_substituted :
  userPrompt "" (Some someImage) "Flat"
    = imageTemplate "Flat" "Convert to SVG" /\
  includes (userPrompt "" (Some someImage) "Flat")
    ("Specific details from user: " ++ dq ++ dq) = false /\
  ~ (exists pre post, forall prompt,
       userPrompt prompt (Some someImage) "Flat" = pre ++ prompt ++ post).
Proof.
  split; [reflexivity | split; [reflexivity |]].
  intros (pre & post & H).
  assert (D : String.length (userPrompt "" (Some someImage) "Flat")
              = String.length (userPrompt "x" (Some someImage) "Flat") + 13)
    by (vm_compute; reflexivity).
  rewrite (H ""), (H "x"), !length_append in D. simpl in D. lia.
Qed.

(** C6, amended.  One template is used per request, the multimodal one
    when an image is attached and the text-only one otherwise, and it is
    the text of the request.  Around the interpolated text the instruction
    is fixed by the style and the presence of an image alone; the
    interpolated text is the prompt as it is, whatever its characters, but
    for the empty prompt with an image attached, which is replaced by
    [Convert to SVG]. *)
Theorem userPrompt_embeds_prompt (imagePart : option ImagePart) (style : string) :
  exists pre post,
    (forall prompt,
       userPrompt prompt imagePart style
         = pre ++ interpolated prompt imagePart ++ post) /\
    (forall prompt,
       match imagePart with
       | Some img =>
           userPrompt prompt imagePart style
             = imageTemplate style (interpolated prompt imagePart) /\
           contents (composeRequest prompt imagePart style None)
             = Parts img (userPrompt prompt imagePart style)
       | None =>
           userPrompt prompt imagePart style = textTemplate prompt style /\
           contents (composeRequest prompt imagePart style None)
             = Text (userPrompt prompt imagePart style)
       end) /\
    (forall prompt,
       imagePart = None \/ prompt <> "" ->
       interpolated prompt imagePart = prompt).
Proof.
  destruct imagePart as [img|].
  - exists (nl ++ "      Reference Image provided. " ++ nl
            ++ "      Task: Convert this image into an SVG following the "
            ++ dq ++ style ++ dq ++ " style." ++ nl
            ++ "      " ++ nl
            ++ "      Specific details from user: " ++ dq).
    eexists. split; [| split].
    + intros prompt. unfold userPrompt, imageTemplate.
      replace (orElse prompt "Convert to SVG")
        with (interpolated prompt (Some img)) by now destruct prompt.
      rewrite !append_assoc. reflexivity.
    + intros prompt. split; [now destruct prompt | reflexivity].
    + intros prompt [H | H]; [discriminate H | now destruct prompt].
  - exists (nl ++ "      Create an SVG artwork of: " ++ dq).
    eexists. split; [| split].
    + intros prompt. unfold userPrompt, textTemplate, interpolated.
      rewrite !append_assoc. reflexivity.
    + intros prompt. split; reflexivity.
    + intros prompt _. reflexivity.
Qed.

(* ================================================================== *)
(** ** Error classification *)
(* ================================================================== *)

(** C9, as the code has it.  The rules are tried in order, and the rule of
    the safety filter comes before the rule of the quota: an error whose
    lower-cased message contains [429 quota exceeded] and also [blocked]
    is surfaced as Content Flagged. *)
Lemma classify_blocked_before_quota :
  truthyOpt (err_suggestion blockedQuotaError) = false /\
  includes (lowercasedMessage blockedQuotaError) "429 quota exceeded" = true /\
  generateSvgFromPrompt (fun _ => Rejected blockedQuotaError)
      "a cat" None "Flat" None
    = inl {| err_name := "Error";
             err_message := Some "Content Flagged";
             err_details := Some "The request triggered the AI's safety filters.";
             err_suggestion := Some "Try rephrasing your prompt to be more abstract or removing sensitive keywords." |} /\
  message (apiErrorOf (handleError blockedQuotaError)) = "Content Flagged".
Proof. repeat split. Qed.

(** C9, amended.  An error thrown by the service call that carries no
    suggestion, and whose lower-cased message contains [429 quota exceeded]
    and neither [safety] nor [blocked], is replaced by the Overloaded
    classification: the message System Overloaded with its fixed details
    and suggestion.  That is what [generateSvgFromPrompt] rejects with and
    what [handleGenerate] shows. *)
Theorem classify_quota_overloaded (error : JsError) :
  truthyOpt (err_suggestion error) = false ->
  Contains (lowercasedMessage error) "429 quota exceeded" ->
  ~ Contains (lowercasedMessage error) "safety" ->
  ~ Contains (lowercasedMessage error) "blocked" ->
  handleError error = overloaded /\
  (forall service prompt imagePart style traceSettings,
     service (composeRequest prompt imagePart style traceSettings)
       = Rejected error ->
     generateSvgFromPrompt service prompt imagePart style traceSettings
       = inl overloaded) /\
  apiErrorOf (handleError error) =
    {| message := "System Overloaded";
       details := Some "API quota exceeded or system is currently busy.";
       suggestion := Some "Please wait a minute before trying again." |}.
Proof.
  intros NoSug Quota NoSafety NoBlocked.
  assert (H : handleError error = overloaded).
  { unfold handleError. rewrite NoSug. unfold classify.
    fold (lowercasedMessage error).
    apply includes_false in NoSafety, NoBlocked.
    rewrite NoSafety, NoBlocked.
    assert (Q : includes (lowercasedMessage error) "429" = true).
    { apply includes_true. apply (Contains_trans _ _ _ Quota).
      exists 0, "", " quota exceeded". now split. }
    now rewrite Q. }
  split; [exact H | split].
  - intros service prompt imagePart style traceSettings Hs.
    unfold generateSvgFromPrompt, tryBlock. now rewrite Hs, H.
  - now rewrite H.
Qed.

Lemma classify_quota_overloaded_witness :
  handleError (newError "Error 429 Quota exceeded for this model")
    = overloaded.
Proof.
  apply (classify_quota_overloaded
           (newError "Error 429 Quota exceeded for this model")).
  - reflexivity.
  - apply includes_true. vm_compute. reflexivity.
  - apply includes_false. vm_compute. reflexivity.
  - apply includes_false. vm_compute. reflexivity.
Defined.

(* ================================================================== *)
(** ** The submit guard *)
(* ================================================================== *)



(* ================================================================== *)
(** ** The lifecycle *)
(* ================================================================== *)

Section Lifecycle.

Lemma handleGenerate_begin_clears (st : App.State) :
  handleGenerate_begin st
  = {| status := LOADING; currentSvg := None; error := None |}.
Proof. reflexivity. Qed.

Lemma Inv_init : Inv initialSystem.
Proof. now repeat split. Qed.

Lemma Inv_render (sys : System) : Inv sys -> Inv (render sys).
Proof. intros I. exact I. Qed.

Lemma Inv_submit (ui : InputSection.State) (sys : System) :
  rendered sys = status (app sys) ->
  Inv sys -> Inv (handleSubmit onGenerate ui (rendered sys) sys).
Proof.
  intros Cur I. unfold handleSubmit. rewrite Cur.
  destruct ((truthy (trim (input ui)) || isSome (selectedImage ui))
            && negb (isLoading (status (app sys)))) eqn:G; [|exact I].
  apply andb_true_iff in G. destruct G as [_ G].
  unfold Inv in *. simpl.
  destruct (status (app sys)); try discriminate G;
    destruct I as (_ & _ & ->); repeat split; simpl; eauto.
Qed.

Lemma Inv_settle (env : Env) (n : nat) (args : GenerateArgs) (sys : System) :
  Inv sys -> nth_error (pending sys) n = Some args ->
  Inv {| app := handleGenerate_resume env args (app sys);
         pending := removeNth n (pending sys);
         rendered := rendered sys |}.
Proof.
  unfold Inv. intros I N.
  destruct (status (app sys)) eqn:S;
    try (destruct I as (_ & _ & P); rewrite P in N;
         destruct n; discriminate N).
  destruct I as (Svg & Err & a & P). rewrite P in *.
  destruct n as [|[|n]]; try discriminate N. simpl.
  unfold handleGenerate_resume.
  destruct (generateSvgFromPrompt _ _ _ _ _); simpl;
    repeat split; auto; discriminate.
Qed.

Lemma Inv_step (s s' : System) :
  Inv s -> stepOnCurrentRender s s' -> Inv s'.
Proof.
  intros I St. revert I.
  destruct St as [sys | ui sys Cur | env n args sys N]; intros I.
  - now apply Inv_render.
  - now apply Inv_submit.
  - now apply Inv_settle.
Qed.

Lemma current_Inv (sys : System) : reachableOnCurrentRender sys -> Inv sys.
Proof.
  induction 1 as [| s s' _ IH St]; [exact Inv_init |].
  exact (Inv_step s s' IH St).
Qed.

(** A run on current renders is a run. *)
Lemma current_reachable (sys : System) :
  reachableOnCurrentRender sys -> reachable sys.
Proof.
  induction 1 as [| s s' _ IH St]; [exact reachable_init |].
  apply reachable_step with s; [exact IH |].
  destruct St as [sys | ui sys Cur | env n args sys N].
  - apply step_render.
  - apply step_submit.
  - now apply step_settle.
Qed.

Lemma Slots_step (s s' : System) : Slots s -> step s s' -> Slots s'.
Proof.
  intros I St. revert I.
  destruct St as [sys | ui sys | env n args sys N]; intros I.
  - exact I.
  - unfold handleSubmit.
    destruct ((truthy (trim (input ui)) || isSome (selectedImage ui))
              && negb (isLoading (rendered sys))); [| exact I].
    unfold Slots. simpl. repeat split.
    destruct (pending sys); discriminate.
  - unfold Slots. simpl. unfold handleGenerate_resume.
    destruct (generateSvgFromPrompt _ _ _ _ _); simpl; discriminate.
Qed.

Lemma reachable_Slots (sys : System) : reachable sys -> Slots sys.
Proof.
  induction 1 as [| s s' _ IH St].
  - unfold Slots. simpl. now split.
  - exact (Slots_step s s' IH St).
Qed.

Lemma foxSettled_current : reachableOnCurrentRender foxSettled.
Proof.
  apply current_step with foxSubmitted.
  - apply current_step with initialSystem.
    + exact current_init.
    + exact (current_submit foxUi initialSystem eq_refl).
  - exact (current_settle foxEnv 0 (mkArgs "a red fox" None Flat None)
             foxSubmitted eq_refl).
Qed.

Lemma raceSubmittedTwice_reachable : reachable raceSubmittedTwice.
Proof.
  apply reachable_step with foxSubmitted.
  - apply reachable_step with initialSystem.
    + exact reachable_init.
    + exact (step_submit foxUi initialSystem).
  - exact (step_submit foxUi foxSubmitted).
Qed.

End Lifecycle.

(** C7, as the code has it.  The submit handler reads the status of the
    last render.  Two submits on one render start two calls; when the
    first fails and the second is answered with markup, the status is
    Success and the artifact and the error are both present. *)
Lemma lifecycle_stale_submit_fills_both_slots :
  reachable raceBothSettled /\
  List.length (pending raceSubmittedTwice) = 2 /\
  status (app raceBothSettled) = SUCCESS /\
  currentSvg (app raceBothSettled) <> None /\
  error (app raceBothSettled) <> None.
Proof.
  split; [| split; [reflexivity | split; [reflexivity |
                                          split; discriminate]]].
  apply reachable_step with raceFirstFailed.
  - apply reachable_step with raceSubmittedTwice.
    + exact raceSubmittedTwice_reachable.
    + exact (step_settle alwaysDown 0 (mkArgs "a red fox" None Flat None)
               raceSubmittedTwice eq_refl).
  - exact (step_settle foxEnv 0 (mkArgs "a red fox" None Flat None)
             raceFirstFailed eq_refl).
Qed.

(** C7, amended.  Starting a generation leaves the status Loading with
    neither artifact nor error.  In every reachable state neither is
    present while Idle or Loading, the artifact is present in Success and
    the error in Error.  In every state of a run in which each submit is
    handled on a render that shows the current status, the artifact and
    the error are never both present: an artifact is present exactly in
    Success and an error exactly in Error. *)
Theorem lifecycle_slots (sys : System) :
  reachable sys ->
  (forall args,
     app (onGenerate args sys)
     = {| status := LOADING; currentSvg := None; error := None |}) /\
  (status (app sys) = IDLE \/ status (app sys) = LOADING ->
   currentSvg (app sys) = None /\ error (app sys) = None) /\
  (status (app sys) = SUCCESS -> currentSvg (app sys) <> None) /\
  (status (app sys) = ERROR -> error (app sys) <> None) /\
  (reachableOnCurrentRender sys ->
   (currentSvg (app sys) = None \/ error (app sys) = None) /\
   (currentSvg (app sys) <> None <-> status (app sys) = SUCCESS) /\
   (error (app sys) <> None <-> status (app sys) = ERROR)).
Proof.
  intros R. apply reachable_Slots in R. unfold Slots in R.
  split; [intros args; apply handleGenerate_begin_clears |].
  split; [| split; [| split]].
  - destruct (status (app sys)); intros [H | H]; try discriminate H;
      tauto.
  - intros H. now rewrite H in R.
  - intros H. now rewrite H in R.
  - clear R. intros C. apply current_Inv in C. unfold Inv in C.
    destruct (status (app sys)); destruct C as (Svg & Err & _);
      repeat split; auto; try congruence; try discriminate;
      intros H; contradiction.
Qed.

Lemma lifecycle_slots_witness :
  reachable foxSettled /\
  status (app foxSettled) = SUCCESS /\
  currentSvg (app foxSettled) <> None /\
  error (app foxSettled) = None.
Proof.
  pose proof (current_reachable foxSettled foxSettled_current) as R.
  destruct (lifecycle_slots foxSettled R) as (_ & _ & S & _ & C).
  destruct (C foxSettled_current) as ([N | E] & _).
  - exfalso. exact (S eq_refl N).
  - split; [exact R | split; [reflexivity | split; [| exact E]]].
    apply S. reflexivity.
Defined.

(* ================================================================== *)
(** ** The artifact of a generation with an empty prompt *)
(* ================================================================== *)

(** C10.  When a generation with the empty prompt succeeds, the artifact
    stored carries a placeholder for prompt: [Image to SVG Conversion]
    with an image attached, [Generated SVG] without. *)
Theorem handleGenerate_empty_prompt_placeholder
    (env : Env) (image : option ImageData) (style : SvgStyle)
    (ts : option TraceSettings) (st : App.State) (svg : string) :
  generateSvgFromPrompt (service env) "" (imagePartOf image)
    (styleName style) ts = inr svg ->
  handleGenerate_resume env (mkArgs "" image style ts) st
  = {| status := SUCCESS;
       currentSvg :=
         Some {| id := randomUUID env;
                 content := svg;
                 prompt := match image with
                           | Some _ => "Image to SVG Conversion"
                           | None => "Generated SVG"
                           end;
                 timestamp := now env |};
       error := error st |}.
Proof.
  intros G. unfold handleGenerate_resume. simpl. rewrite G.
  destruct image; reflexivity.
Qed.

Lemma handleGenerate_empty_prompt_placeholder_witness :
  option_map prompt
    (currentSvg
       (handleGenerate_resume foxEnv
          (mkArgs "" (Some (mkImageData "aGVsbG8=" "image/png" "data:image/png;base64,aGVsbG8="))
             VectorTrace None)
          (handleGenerate_begin initialState)))
  = Some "Image to SVG Conversion" /\
  option_map prompt
    (currentSvg
       (handleGenerate_resume foxEnv (mkArgs "" None Flat None)
          (handleGenerate_begin initialState)))
  = Some "Generated SVG".
Proof.
  split.
  - rewrite (handleGenerate_empty_prompt_placeholder foxEnv
               (Some (mkImageData "aGVsbG8=" "image/png" "data:image/png;base64,aGVsbG8="))
               VectorTrace None (handleGenerate_begin initialState)
               "<svg viewBox='0 0 1 1'></svg>" eq_refl).
    reflexivity.
  - rewrite (handleGenerate_empty_prompt_placeholder foxEnv None Flat None
               (handleGenerate_begin initialState)
               "<svg viewBox='0 0 1 1'></svg>" eq_refl).
    reflexivity.
Defined.

(* ================================================================== *)
(** ** Further properties of the response interpreter *)
(* ================================================================== *)

Section InterpreterFacts.

Lemma append_empty_r (a : string) : a ++ "" = a.
Proof.
  induction a as [|x a IH]; simpl; [reflexivity | now rewrite IH].
Qed.

Lemma drop_append_le (n : nat) (a b : string) :
  n <= String.length a -> drop n (a ++ b) = drop n a ++ b.
Proof.
  revert a; induction n as [|n IH]; intros [|x a]; simpl; intros L;
    try reflexivity; try lia.
  apply IH. lia.
Qed.

Lemma take_append_le (n : nat) (a b : string) :
  n <= String.length a -> take n (a ++ b) = take n a.
Proof.
  revert a; induction n as [|n IH]; intros [|x a]; simpl; intros L;
    try reflexivity; try lia.
  rewrite IH; [reflexivity | lia].
Qed.

Lemma regexMatch_some_span (raw m : string) :
  regexMatch raw = Some m -> HasSvgSpan raw.
Proof.
  intros R. destruct (regexMatch_sound _ _ R) as (pre & post & E & Hm & _).
  destruct (matchHere_sound _ _ Hm) as (Sm & _).
  exists (String.length pre), m. split; [exact Sm | now exists pre, post].
Qed.

Lemma regexMatch_none_iff (raw : string) :
  regexMatch raw = None <-> ~ HasSvgSpan raw.
Proof.
  split; [| apply regexMatch_none].
  intros N H. destruct (regexMatch_first raw H) as (m & R & _). congruence.
Qed.

Lemma SvgSpan_markers (m : string) :
  SvgSpan m -> ContainsCi m "<svg" /\ ContainsCi m "</svg>".
Proof.
  intros (o & body & c & -> & Co & Cc). split.
  - exists o. split; [| exact Co].
    exists 0, "", (body ++ c). now split.
  - exists c. split; [| exact Cc].
    exists (String.length (o ++ body)), (o ++ body), "".
    split; [| reflexivity].
    now rewrite append_assoc, append_empty_r.
Qed.

Lemma Contains_ContainsCi (s p : string) : Contains s p -> ContainsCi s p.
Proof. intros H. exists p. split; [exact H | reflexivity]. Qed.

(** The literal keeps matching, or failing, when text is appended to a
    string that is long enough to decide. *)
Lemma matchLiteral_append (p s post : string) :
  matchLiteral p s = true -> matchLiteral p (s ++ post) = true.
Proof.
  intros H. apply matchLiteral_true in H. destruct H as (o & rest & -> & C).
  apply matchLiteral_true. exists o, (rest ++ post).
  split; [apply append_assoc | exact C].
Qed.

Lemma matchLiteral_append_false (p s post : string) :
  matchLiteral p s = false -> String.length p <= String.length s ->
  matchLiteral p (s ++ post) = false.
Proof.
  revert s; induction p as [|a p IH]; intros [|b s]; simpl;
    try discriminate; try lia.
  intros H L. apply andb_false_iff in H. apply andb_false_iff.
  destruct H as [H | H]; [now left | right].
  apply IH; [exact H | lia].
Qed.

Lemma matchLazyClose_length (s t : string) :
  matchLazyClose s = Some t ->
  6 <= String.length t /\ String.length t <= String.length s.
Proof.
  intros M.
  destruct (matchLazyClose_sound _ _ M) as (body & c & rest & -> & -> & C & _).
  apply ciEq_length in C. simpl in C. rewrite !length_append. lia.
Qed.

Lemma matchLazyClose_append (s t post : string) :
  matchLazyClose s = Some t -> matchLazyClose (s ++ post) = Some t.
Proof.
  revert t; induction s as [|x s IH]; intros t;
    rewrite matchLazyClose_eq; [discriminate |].
  rewrite (matchLazyClose_eq (String x s ++ post)).
  destruct (matchLiteral "</svg>" (String x s)) eqn:L.
  - intros Ht.
    assert (Et : take 6 (String x s) = t) by congruence.
    rewrite (matchLiteral_append _ _ post L).
    apply matchLiteral_true in L. destruct L as (o & rest & E & C).
    apply ciEq_length in C. simpl in C.
    rewrite take_append_le; [now rewrite Et |].
    rewrite E, length_append. lia.
  - destruct (matchLazyClose s) as [t'|] eqn:M; cbn [option_map];
      [|discriminate].
    intros Ht. assert (Et : String x t' = t) by congruence. subst t.
    destruct (matchLazyClose_length _ _ M) as [Six Len].
    rewrite (matchLiteral_append_false "</svg>" (String x s) post L)
      by (simpl; lia).
    cbn [append]. now rewrite (IH _ eq_refl).
Qed.

Lemma matchHere_append (s m post : string) :
  matchHere s = Some m -> matchHere (s ++ post) = Some m.
Proof.
  unfold matchHere.
  destruct (matchLiteral "<svg" s) eqn:L; [|discriminate].
  rewrite (matchLiteral_append _ _ post L).
  apply matchLiteral_true in L. destruct L as (o & r & -> & Co).
  pose proof (ciEq_length _ _ Co) as Lo. simpl in Lo.
  rewrite append_assoc, <- Lo, !take_append, !drop_append.
  destruct (matchLazyClose r) as [t|] eqn:M; simpl; [|discriminate].
  now rewrite (matchLazyClose_append _ _ post M).
Qed.

(** Text after the reply does not change what the search finds. *)
Lemma regexMatch_append (s m post : string) :
  regexMatch s = Some m -> regexMatch (s ++ post) = Some m.
Proof.
  revert m; induction s as [|x s IH]; intros m; rewrite regexMatch_eq.
  - destruct (matchHere "") as [m0|] eqn:H; [|discriminate].
    discriminate H.
  - rewrite (regexMatch_eq (String x s ++ post)).
    destruct (matchHere (String x s)) as [m0|] eqn:H.
    + intros [= <-]. now rewrite (matchHere_append _ _ post H).
    + intros R.
      assert (N : matchHere (String x s ++ post) = None).
      { destruct (regexMatch_sound _ _ R) as (pre & post' & E & Hm & _).
        destruct (matchHere_sound _ _ Hm) as ((o & body & c & Em & Co & Cc) & _).
        pose proof (ciEq_length _ _ Co) as Lo. simpl in Lo.
        unfold matchHere in *.
        destruct (matchLiteral "<svg" (String x s)) eqn:L.
        - exfalso.
          assert (D : String x s
                      = (String x pre ++ o) ++ body ++ c ++ post').
          { rewrite E, Em. simpl. now rewrite !append_assoc. }
          rewrite D, drop_append_le in H
            by (rewrite length_append; simpl; lia).
          rewrite append_assoc in H.
          destruct (matchLazyClose_complete
                      (drop 4 (String x pre ++ o) ++ body) c post' Cc)
            as [t Ht].
          rewrite append_assoc in Ht. rewrite Ht in H. discriminate H.
        - rewrite (matchLiteral_append_false "<svg" (String x s) post L);
            [reflexivity |].
          rewrite E, Em. simpl. rewrite !length_append. lia. }
      rewrite N. simpl. now apply IH.
Qed.

Lemma upperChar_lt (x : ascii) : upperChar x = "<"%char -> x = "<"%char.
Proof.
  destruct x as [[] [] [] [] [] [] [] []]; vm_compute; congruence.
Qed.

(** Text before the reply that has no [<] in it does not either. *)
Lemma regexMatch_prepend (pre s : string) :
  ~ Contains pre "<" -> regexMatch (pre ++ s) = regexMatch s.
Proof.
  induction pre as [|x pre IH]; intros N; [reflexivity |].
  rewrite regexMatch_eq.
  assert (Nx : x <> "<"%char).
  { intros ->. apply N. exists 0, "", pre. now split. }
  assert (H : matchHere (String x pre ++ s) = None).
  { assert (L : matchLiteral "<svg" (String x (pre ++ s)) = false).
    { change (matchLiteral "<svg" (String x (pre ++ s)))
        with (Ascii.eqb (canonicalize "<") (canonicalize x)
              && matchLiteral "svg" (pre ++ s)).
      destruct (Ascii.eqb_spec (canonicalize "<") (canonicalize x))
        as [E|_]; [| reflexivity].
      exfalso. apply Nx, upperChar_lt. symmetry. exact E. }
    unfold matchHere. cbn [append]. now rewrite L. }
  rewrite H. simpl. apply IH.
  intros (n & a & b & E & L). apply N.
  exists (S n), (String x a), b.
  split; [now rewrite E | simpl; now rewrite L].
Qed.

End InterpreterFacts.

(** X1.  The interpreter has three outcomes and no other.  When the reply
    has a span, the first span is returned.  When it has none but the text
    left after removing the fence delimiters and trimming contains both
    tag markers, that text is returned.  Otherwise the format error is
    thrown. *)
Theorem interpret_cases (raw : string) :
  (HasSvgSpan raw /\
   exists m, interpret raw = inr m /\ FirstSvgSpan raw m) \/
  (~ HasSvgSpan raw /\
   Contains (cleanFences raw) "<svg" /\ Contains (cleanFences raw) "</svg>" /\
   interpret raw = inr (cleanFences raw)) \/
  (~ HasSvgSpan raw /\
   ~ (Contains (cleanFences raw) "<svg" /\
      Contains (cleanFences raw) "</svg>") /\
   interpret raw = inl noSvgError).
Proof.
  destruct (regexMatch raw) as [m|] eqn:R.
  - left. pose proof (regexMatch_some_span _ _ R) as H.
    split; [exact H |].
    destruct (regexMatch_first raw H) as (m' & R' & F).
    exists m'. split; [| exact F].
    unfold interpret. rewrite R'.
    destruct F as (n & S & _). now rewrite (SvgSpan_truthy _ S).
  - right. apply regexMatch_none_iff in R.
    unfold interpret, fromCleaned. rewrite (regexMatch_none raw R). cbv zeta.
    destruct (includes (cleanFences raw) "<svg") eqn:A;
      destruct (includes (cleanFences raw) "</svg>") eqn:B; simpl.
    + left. apply includes_true in A, B. tauto.
    + right. apply includes_false in B. tauto.
    + right. apply includes_false in A. tauto.
    + right. apply includes_false in A. tauto.
Qed.

(** X2.  Extraction is idempotent: the markup the interpreter extracts
    from a reply that has a span is returned as it is when it is
    interpreted again. *)
Theorem interpret_idempotent (raw m : string) :
  HasSvgSpan raw -> interpret raw = inr m -> interpret m = inr m.
Proof.
  intros H I.
  destruct (regexMatch_first raw H) as (m0 & R & F).
  assert (E : m0 = m).
  { unfold interpret in I. rewrite R in I.
    destruct F as (n & S & _). rewrite (SvgSpan_truthy _ S) in I.
    congruence. }
  subst m0. destruct F as (n & S & (pre & post & Eraw & Ln) & Min).
  assert (F' : FirstSvgSpan m m).
  { exists 0. split; [exact S |]. split.
    - exists "", "". split; [now rewrite append_empty_r | reflexivity].
    - intros n' m' S' (pre' & post' & E' & L').
      destruct n' as [|n']; [right | left; lia].
      split; [reflexivity |].
      destruct pre'; [| discriminate L']. simpl in E'.
      destruct (Min n m' S') as [Lt | [_ Le]]; [| lia | exact Le].
      exists pre, (post' ++ post). split; [| exact Ln].
      rewrite Eraw. rewrite E' at 1. now rewrite append_assoc. }
  assert (Hm : HasSvgSpan m).
  { exists 0, m. split; [exact S |]. now destruct F' as (k & _ & O & _);
      destruct k; [exact O | exists "", ""; split;
        [now rewrite append_empty_r | reflexivity]]. }
  destruct (regexMatch_first m Hm) as (m1 & R1 & F1).
  rewrite (FirstSvgSpan_unique _ _ _ F1 F') in R1.
  unfold interpret. now rewrite R1, (SvgSpan_truthy _ S).
Qed.

Lemma interpret_idempotent_witness :
  interpret exampleMarkup = inr exampleMarkup.
Proof.
  apply (interpret_idempotent exampleReply exampleMarkup).
  - exists 6, exampleMarkup. split.
    + exists "<svg",
        (" viewBox=" ++ dq ++ "0 0 10 10" ++ dq ++ "><rect/>"), "</svg>".
      repeat split; reflexivity.
    + exists "noise ", " trailing". split; reflexivity.
  - reflexivity.
Defined.

(** X3.  Text around the reply is dropped: when the reply has a span,
    putting before it any text without the character [<] and after it any
    text at all leaves the result of the interpreter unchanged. *)
Theorem interpret_ignores_surrounding_text (pre raw post : string) :
  HasSvgSpan raw -> ~ Contains pre "<" ->
  interpret (pre ++ raw ++ post) = interpret raw.
Proof.
  intros H N.
  destruct (regexMatch_first raw H) as (m & R & F).
  unfold interpret.
  rewrite (regexMatch_prepend pre (raw ++ post) N).
  rewrite (regexMatch_append raw m post R), R.
  destruct F as (n & S & _). now rewrite (SvgSpan_truthy _ S).
Qed.

Lemma interpret_ignores_surrounding_text_witness :
  interpret (fenceOpen ++ fencedMarkup ++ fenceClose) = inr fencedMarkup.
Proof.
  rewrite (interpret_ignores_surrounding_text fenceOpen fencedMarkup fenceClose).
  - reflexivity.
  - exists 0, fencedMarkup. split.
    + exists "<svg", ">...", "</svg>". repeat split; reflexivity.
    + exists "", "". split; reflexivity.
  - intros C. apply includes_true in C. vm_compute in C. discriminate C.
Defined.

(* ================================================================== *)
(** ** Further properties of the error handler *)
(* ================================================================== *)

Section ErrorFacts.

Lemma classify_suggestion (error : JsError) :
  truthyOpt (err_suggestion (classify error)) = true /\
  truthyOpt (err_details (classify error)) = true /\
  exists msg, err_message (classify error) = Some msg /\
              In msg classifications.
Proof.
  unfold classify.
  repeat match goal with
    | |- context [if ?c then _ else _] => destruct c
    end; simpl; repeat split; try reflexivity;
    try (eexists; split; [reflexivity | simpl; tauto]).
  unfold optOrElse, orElse.
  destruct (err_message error) as [[|c m]|]; reflexivity.
Qed.

Lemma includes_of_Contains (s p : string) :
  Contains s p -> includes s p = true.
Proof. apply includes_true. Qed.

Lemma not_includes_of_not_Contains (s p : string) :
  ~ Contains s p -> includes s p = false.
Proof. apply includes_false. Qed.

Lemma handleError_suggestion (error : JsError) :
  truthyOpt (err_suggestion (handleError error)) = true.
Proof.
  unfold handleError.
  destruct (truthyOpt (err_suggestion error)) eqn:T; [exact T |].
  apply classify_suggestion.
Qed.

(** What the interpreter returns shows both tag markers. *)
Lemma interpret_result (raw : string) :
  (exists m, interpret raw = inr m /\
             ContainsCi m "<svg" /\ ContainsCi m "</svg>") \/
  interpret raw = inl noSvgError.
Proof.
  unfold interpret, fromCleaned.
  destruct (regexMatch raw) as [m|] eqn:R.
  - left. exists m.
    destruct (regexMatch_sound _ _ R) as (pre & post & _ & Hm & _).
    destruct (matchHere_sound _ _ Hm) as (Sm & _).
    rewrite (SvgSpan_truthy _ Sm). split; [reflexivity |].
    now apply SvgSpan_markers.
  - cbv zeta.
    destruct (includes (cleanFences raw) "<svg") eqn:A;
      destruct (includes (cleanFences raw) "</svg>") eqn:B; simpl;
      try (now right).
    left. exists (cleanFences raw). split; [reflexivity |].
    apply includes_true in A, B.
    split; now apply Contains_ContainsCi.
Qed.

End ErrorFacts.

(** X4.  Whatever is thrown inside [generateSvgFromPrompt], the error it
    rejects with carries a non-empty suggestion, and handling it once more
    changes nothing.  An error that came without a suggestion is replaced
    by one of the five classifications, with non-empty details. *)
Theorem handleError_structured (error : JsError) :
  truthyOpt (err_suggestion (handleError error)) = true /\
  handleError (handleError error) = handleError error /\
  (truthyOpt (err_suggestion error) = false ->
   truthyOpt (err_details (handleError error)) = true /\
   exists msg, err_message (handleError error) = Some msg /\
               In msg classifications).
Proof.
  pose proof (handleError_suggestion error) as S.
  split; [exact S | split].
  - unfold handleError at 1. now rewrite S.
  - intros T. unfold handleError. rewrite T.
    split; apply classify_suggestion.
Qed.

Lemma handleError_structured_witness :
  truthyOpt (err_details (handleError (newError "fetch failed"))) = true /\
  exists msg,
    err_message (handleError (newError "fetch failed")) = Some msg /\
    In msg classifications.
Proof.
  apply (handleError_structured (newError "fetch failed")). reflexivity.
Defined.

(** X5.  The rule of the safety filter is the first: an error without
    suggestion whose lower-cased message contains [safety] or [blocked] is
    classified Content Flagged, whatever else the message contains. *)
Theorem classify_safety_first (error : JsError) :
  truthyOpt (err_suggestion error) = false ->
  Contains (lowercasedMessage error) "safety" \/
  Contains (lowercasedMessage error) "blocked" ->
  handleError error = contentFlagged /\
  apiErrorOf (handleError error) =
    {| message := "Content Flagged";
       details := Some "The request triggered the AI's safety filters.";
       suggestion := Some "Try rephrasing your prompt to be more abstract or removing sensitive keywords." |}.
Proof.
  intros T K.
  assert (H : handleError error = contentFlagged).
  { unfold handleError. rewrite T. unfold classify.
    fold (lowercasedMessage error).
    destruct K as [K | K]; apply includes_of_Contains in K; rewrite K;
      [reflexivity | now rewrite orb_true_r]. }
  split; [exact H | now rewrite H].
Qed.

Lemma classify_safety_first_witness :
  handleError (newError "403 Forbidden: SAFETY settings, quota 429")
    = contentFlagged.
Proof.
  apply (classify_safety_first
           (newError "403 Forbidden: SAFETY settings, quota 429")).
  - reflexivity.
  - left. apply includes_true. vm_compute. reflexivity.
Defined.

(** X6.  After the safety and quota rules comes the rule of the invalid
    request, and after it the rule of the credentials: with none of
    [safety], [blocked], [429], [quota] and [exhausted] in the lower-cased
    message, [400] or [invalid argument] gives Invalid Request; with
    neither of these, [apikey] or [403] gives Authentication Error. *)
Theorem classify_invalid_then_auth (error : JsError) :
  truthyOpt (err_suggestion error) = false ->
  Forall (fun k => ~ Contains (lowercasedMessage error) k)
    ["safety"; "blocked"; "429"; "quota"; "exhausted"] ->
  (Contains (lowercasedMessage error) "400" \/
   Contains (lowercasedMessage error) "invalid argument" ->
   handleError error = invalidRequest) /\
  (~ Contains (lowercasedMessage error) "400" ->
   ~ Contains (lowercasedMessage error) "invalid argument" ->
   Contains (lowercasedMessage error) "apikey" \/
   Contains (lowercasedMessage error) "403" ->
   handleError error = authenticationError).
Proof.
  intros T N.
  repeat match goal with
    | H : Forall _ (_ :: _) |- _ => inversion H; subst; clear H
    end.
  repeat match goal with
    | H : ~ Contains _ _ |- _ => apply not_includes_of_not_Contains in H
    end.
  unfold handleError. rewrite T. unfold classify.
  fold (lowercasedMessage error).
  repeat match goal with
    | H : includes _ _ = false |- _ => rewrite H; clear H
    end.
  simpl. split.
  - intros [K | K]; apply includes_of_Contains in K; rewrite K;
      [reflexivity | now rewrite orb_true_r].
  - intros A B K.
    apply not_includes_of_not_Contains in A, B. rewrite A, B. simpl.
    destruct K as [K | K]; apply includes_of_Contains in K; rewrite K;
      [reflexivity | now rewrite orb_true_r].
Qed.

Lemma classify_invalid_then_auth_witness :
  handleError (newError "400 Bad Request: Invalid argument, and 403")
    = invalidRequest /\
  handleError (newError "API key not valid (403)") = authenticationError.
Proof.
  split.
  - apply (classify_invalid_then_auth
             (newError "400 Bad Request: Invalid argument, and 403")).
    + reflexivity.
    + repeat constructor; intros C; apply includes_true in C;
        vm_compute in C; discriminate C.
    + left. apply includes_true. vm_compute. reflexivity.
  - apply (classify_invalid_then_auth (newError "API key not valid (403)")).
    + reflexivity.
    + repeat constructor; intros C; apply includes_true in C;
        vm_compute in C; discriminate C.
    + intros C; apply includes_true in C; vm_compute in C; discriminate C.
    + intros C; apply includes_true in C; vm_compute in C; discriminate C.
    + right. apply includes_true. vm_compute. reflexivity.
Defined.

(** X7.  An error without suggestion whose lower-cased message has none of
    the nine keywords is classified Connection Error, and its details are
    the message of the error as it was thrown, case kept; the fixed text
    stands in only when the message is empty or absent. *)
Theorem classify_connection_fallback (error : JsError) :
  truthyOpt (err_suggestion error) = false ->
  Forall (fun k => ~ Contains (lowercasedMessage error) k)
    classifierKeywords ->
  err_message (handleError error) = Some "Connection Error" /\
  err_suggestion (handleError error) =
    Some "Check your internet connection or try again later." /\
  (forall msg, err_message error = Some msg -> msg <> "" ->
     err_details (handleError error) = Some msg /\
     details (apiErrorOf (handleError error)) = Some msg) /\
  (err_message error = None \/ err_message error = Some "" ->
   err_details (handleError error) = Some "An unexpected error occurred.").
Proof.
  intros T N. unfold classifierKeywords in N.
  repeat match goal with
    | H : Forall _ (_ :: _) |- _ => inversion H; subst; clear H
    end.
  repeat match goal with
    | H : ~ Contains _ _ |- _ => apply not_includes_of_not_Contains in H
    end.
  unfold handleError. rewrite T. unfold classify.
  fold (lowercasedMessage error).
  repeat match goal with
    | H : includes _ _ = false |- _ => rewrite H; clear H
    end.
  simpl. split; [reflexivity | split; [reflexivity | split]].
  - intros msg E Ne. rewrite E. destruct msg; [congruence |].
    split; reflexivity.
  - intros [E | E]; rewrite E; reflexivity.
Qed.

Lemma classify_connection_fallback_witness :
  err_details (handleError (newError "Failed to fetch"))
    = Some "Failed to fetch".
Proof.
  assert (N : Forall (fun k => ~ Contains
                (lowercasedMessage (newError "Failed to fetch")) k)
                classifierKeywords).
  { repeat constructor; intros C; apply includes_true in C;
      vm_compute in C; discriminate C. }
  destruct (classify_connection_fallback (newError "Failed to fetch")
              eq_refl N) as (_ & _ & D & _).
  apply (D "Failed to fetch"); [reflexivity | discriminate].
Defined.

(** X8.  [generateSvgFromPrompt] resolves only when the service resolved,
    and then with text that contains a start tag marker and an end tag
    marker (case ignored); it rejects only with an error that carries a
    non-empty suggestion. *)
Theorem generateSvgFromPrompt_outcome
    (service : GenerateContentRequest -> ServiceOutcome)
    (prompt : string) (imagePart : option ImagePart) (style : string)
    (traceSettings : option TraceSettings) :
  match generateSvgFromPrompt service prompt imagePart style traceSettings with
  | inr svg =>
      (exists text,
         service (composeRequest prompt imagePart style traceSettings)
           = Resolved text /\
         interpret (optOrElse text "") = inr svg) /\
      ContainsCi svg "<svg" /\ ContainsCi svg "</svg>"
  | inl error => truthyOpt (err_suggestion error) = true
  end.
Proof.
  unfold generateSvgFromPrompt, tryBlock.
  destruct (service (composeRequest prompt imagePart style traceSettings))
    as [text | e].
  - destruct (interpret_result (optOrElse text "")) as [(m & I & M) | I];
      rewrite I.
    + split; [exists text; now split | exact M].
    + apply handleError_suggestion.
  - apply handleError_suggestion.
Qed.

(* ================================================================== *)
(** ** Further properties of the lifecycle *)
(* ================================================================== *)

Section LifecycleFacts.

Lemma truthy_nonempty (s : string) : truthy s = true <-> s <> "".
Proof. destruct s; simpl; split; congruence. Qed.

Lemma orElse_nonempty (a b : string) : b <> "" -> orElse a b <> "".
Proof. unfold orElse. destruct a; simpl; [auto | discriminate]. Qed.

Lemma optOrElse_nonempty (o : option string) (b : string) :
  b <> "" -> optOrElse o b <> "".
Proof. destruct o; simpl; [apply orElse_nonempty | auto]. Qed.

(** What [generateSvgFromPrompt] resolves or rejects with. *)
Lemma generateSvgFromPrompt_result
    (service : GenerateContentRequest -> ServiceOutcome)
    (p : string) (img : option ImagePart) (style : string)
    (ts : option TraceSettings) :
  match generateSvgFromPrompt service p img style ts with
  | inr svg => ContainsCi svg "<svg" /\ ContainsCi svg "</svg>"
  | inl e => truthyOpt (err_suggestion e) = true
  end.
Proof.
  unfold generateSvgFromPrompt, tryBlock.
  destruct (service (composeRequest p img style ts)) as [text | e];
    [| apply handleError_suggestion].
  destruct (interpret_result (optOrElse text "")) as [(m & I & M) | I];
    rewrite I; [exact M | apply handleError_suggestion].
Qed.

(** The state [handleGenerate] leaves when it completes. *)
Lemma handleGenerate_resume_rendered (env : Env) (args : GenerateArgs)
    (st : App.State) :
  Rendered (handleGenerate_resume env args st).
Proof.
  unfold handleGenerate_resume.
  pose proof (generateSvgFromPrompt_result (service env) (arg_prompt args)
                (imagePartOf (arg_image args)) (styleName (arg_style args))
                (arg_traceSettings args)) as G.
  destruct (generateSvgFromPrompt _ _ _ _ _) as [e | svg];
    unfold Rendered; simpl.
  - split; [reflexivity | split; [reflexivity |]].
    eexists. eexists. split; [reflexivity |]. simpl.
    split; [apply optOrElse_nonempty; discriminate |].
    split; [reflexivity |].
    split; [apply orElse_nonempty; discriminate | exact G].
  - split; [reflexivity | split; [reflexivity |]].
    eexists. split; [reflexivity |]. simpl.
    split; [| exact G].
    apply orElse_nonempty. destruct (isSome (arg_image args)); discriminate.
Qed.

Lemma reachable_Rendered (sys : System) :
  reachable sys -> Rendered (app sys).
Proof.
  induction 1 as [| s s' R IH St].
  - unfold Rendered; simpl. now repeat split.
  - revert IH.
    destruct St as [sys | ui sys | env n args sys N]; intros IH.
    + exact IH.
    + unfold handleSubmit.
      destruct ((truthy (trim (input ui)) || isSome (selectedImage ui))
                && negb (isLoading (rendered sys))); [| exact IH].
      unfold Rendered; simpl. now repeat split.
    + simpl. apply handleGenerate_resume_rendered.
Qed.

End LifecycleFacts.

(** X9.  In every reachable state the page shows what the status says and
    nothing else: the placeholder when Idle, nothing while Loading; in
    Success the preview of an artifact whose prompt is not empty and whose
    markup shows both tag markers; in Error the card of an error with a
    non-empty message, non-empty details and a tip. *)
Theorem lifecycle_rendered (sys : System) :
  reachable sys -> Rendered (app sys).
Proof. exact (reachable_Rendered sys). Qed.

Lemma lifecycle_rendered_witness :
  reachable foxSettled /\ Rendered (app foxSettled).
Proof.
  pose proof (current_reachable foxSettled foxSettled_current) as R.
  split; [exact R | exact (lifecycle_rendered foxSettled R)].
Defined.

(** X10.  One request in flight, on current renders.  In every state of a
    run in which each submit is handled on a render that shows the current
    status, the suspended calls are at most one, there is one exactly
    while the status is Loading, and a submit after the next render starts
    no other.  In any state, a submit handled on a render whose status is
    Loading starts no call.  Two submits handled on one render do start
    two. *)
Theorem single_request_in_flight (sys : System) :
  reachableOnCurrentRender sys ->
  List.length (pending sys) <= 1 /\
  (pending sys <> [] <-> status (app sys) = LOADING) /\
  (status (app sys) = LOADING ->
   forall ui,
     handleSubmit onGenerate ui (rendered (render sys)) (render sys)
     = render sys) /\
  (forall (any : System) ui,
     rendered any = LOADING ->
     handleSubmit onGenerate ui (rendered any) any = any) /\
  (reachable raceSubmittedTwice /\
   List.length (pending raceSubmittedTwice) = 2).
Proof.
  intros R. apply current_Inv in R. unfold Inv in R.
  assert (D : forall (any : System) ui,
            rendered any = LOADING ->
            handleSubmit onGenerate ui (rendered any) any = any).
  { intros any ui L. unfold handleSubmit. rewrite L. simpl.
    now rewrite andb_false_r. }
  assert (A : List.length (pending sys) <= 1 /\
              (pending sys <> [] <-> status (app sys) = LOADING)).
  { destruct (status (app sys)) eqn:S.
    - destruct R as (_ & _ & ->). simpl. split; [lia | split; congruence].
    - destruct R as (_ & _ & a & ->). simpl.
      split; [lia | split; congruence].
    - destruct R as (_ & _ & ->). simpl. split; [lia | split; congruence].
    - destruct R as (_ & _ & ->). simpl. split; [lia | split; congruence]. }
  destruct A as [A1 A2].
  split; [exact A1 | split; [exact A2 | split; [| split; [exact D |]]]].
  - intros L ui. apply D. simpl. exact L.
  - split; [exact raceSubmittedTwice_reachable | reflexivity].
Qed.

Lemma single_request_in_flight_witness :
  reachableOnCurrentRender foxSubmitted /\
  List.length (pending foxSubmitted) = 1 /\
  handleSubmit onGenerate foxUi (rendered (render foxSubmitted))
    (render foxSubmitted) = render foxSubmitted.
Proof.
  assert (R : reachableOnCurrentRender foxSubmitted).
  { apply current_step with initialSystem.
    - exact current_init.
    - exact (current_submit foxUi initialSystem eq_refl). }
  destruct (single_request_in_flight foxSubmitted R) as (_ & _ & H & _).
  split; [exact R | split; [reflexivity |]].
  apply H. reflexivity.
Defined.



(* ================================================================== *)
(** ** From the form to the artifact *)
(* ================================================================== *)

Section SubmitFacts.

(** A reply with a span makes [generateSvgFromPrompt] resolve with the
    first span. *)
Lemma generateSvgFromPrompt_span
    (service : GenerateContentRequest -> ServiceOutcome)
    (p : string) (img : option ImagePart) (style : string)
    (ts : option TraceSettings) (raw : string) :
  service (composeRequest p img style ts) = Resolved (Some raw) ->
  HasSvgSpan raw ->
  exists m, generateSvgFromPrompt service p img style ts = inr m /\
            FirstSvgSpan raw m.
Proof.
  intros Hs H. destruct (regexMatch_first raw H) as (m & R & F).
  exists m. split; [| exact F].
  unfold generateSvgFromPrompt, tryBlock. rewrite Hs.
  assert (O : optOrElse (Some raw) "" = raw).
  { destruct raw; [| reflexivity]. discriminate R. }
  rewrite O. unfold interpret. rewrite R.
  destruct F as (n & S & _). now rewrite (SvgSpan_truthy _ S).
Qed.

(** The guard of [handleSubmit], in terms of the flags of the render. *)
Lemma handleSubmit_guard (ui : InputSection.State) (st : GenerationStatus) :
  (truthy (trim (input ui)) || isSome (selectedImage ui))
  && negb (isLoading st) = negb (submitDisabled ui st).
Proof.
  unfold submitDisabled, hasContent.
  destruct (trim (input ui)); destruct (selectedImage ui); destruct st;
    reflexivity.
Qed.

Lemma trimStart_head (s : string) (c : ascii) (r : string) :
  trimStart s = String c r -> isWhiteSpace c = false.
Proof.
  induction s as [|x s IH]; simpl; [discriminate |].
  destruct (isWhiteSpace x) eqn:W; [exact IH |].
  intros [= <- _]. exact W.
Qed.

Lemma trimEnd_head (c : ascii) (r : string) :
  isWhiteSpace c = false -> exists r', trimEnd (String c r) = String c r'.
Proof.
  intros W. simpl. rewrite W. destruct (trimEnd r); eauto.
Qed.

Lemma trimEnd_idempotent (s : string) : trimEnd (trimEnd s) = trimEnd s.
Proof.
  induction s as [|c s IH]; [reflexivity |]. simpl.
  destruct (trimEnd s) as [|y r] eqn:E.
  - destruct (isWhiteSpace c) eqn:W; [reflexivity |]. simpl. now rewrite W.
  - change (trimEnd (String c (String y r)))
      with (match trimEnd (String y r) with
            | "" => if isWhiteSpace c then "" else String c ""
            | t => String c t
            end).
    now rewrite IH.
Qed.

Lemma trim_idempotent (s : string) : trim (trim s) = trim s.
Proof.
  unfold trim. destruct (trimStart s) as [|c r] eqn:E; [reflexivity |].
  pose proof (trimStart_head _ _ _ E) as W.
  destruct (trimEnd_head c r W) as [r' E'].
  rewrite E'. cbn [trimStart]. rewrite W, <- E'. apply trimEnd_idempotent.
Qed.

Lemma trim_head (s : string) (c : ascii) (r : string) :
  trim s = String c r -> isWhiteSpace c = false.
Proof.
  unfold trim. destruct (trimStart s) as [|x t] eqn:E; [discriminate |].
  pose proof (trimStart_head _ _ _ E) as W.
  destruct (trimEnd_head x t W) as [r' E']. rewrite E'.
  intros [= <- _]. exact W.
Qed.

Lemma trimEnd_last (s r : string) (c : ascii) :
  trimEnd s = r ++ String c "" -> isWhiteSpace c = false.
Proof.
  revert r; induction s as [|x s IH]; intros r; simpl.
  - destruct r; discriminate.
  - destruct (trimEnd s) as [|y t] eqn:E.
    + destruct (isWhiteSpace x) eqn:W.
      * destruct r; discriminate.
      * destruct r as [|z [|? ?]]; simpl; try discriminate.
        intros [= <-]. exact W.
    + destruct r as [|z r]; simpl.
      * discriminate.
      * intros [= _ H]. exact (IH r H).
Qed.

End SubmitFacts.

(** X12.  From the form to the artifact.  A submit of a form that has
    content, handled on a render whose status is not Loading, leaves the
    status Loading with neither artifact nor error and suspends one more
    call.  When the service answers the request composed from the form
    with a reply that has a span, that call completes, from any state,
    into Success with an artifact that holds the first span of the reply
    and, for prompt, the trimmed input, or [Image to SVG Conversion] when
    the trimmed input is empty; the error is left as it was, so there is
    none when nothing else settled in between. *)
Theorem submit_then_markup_reply (sys : System) (ui : InputSection.State)
    (env : Env) (raw : string) :
  rendered sys <> LOADING -> hasContent ui = true ->
  service env (requestOf ui) = Resolved (Some raw) ->
  HasSvgSpan raw ->
  exists args m,
    pending (handleSubmit onGenerate ui (rendered sys) sys)
      = (pending sys ++ [args])%list /\
    app (handleSubmit onGenerate ui (rendered sys) sys)
      = {| status := LOADING; currentSvg := None; error := None |} /\
    FirstSvgSpan raw m /\
    forall st,
      handleGenerate_resume env args st
      = {| status := SUCCESS;
           currentSvg :=
             Some {| id := randomUUID env;
                     content := m;
                     prompt := match trim (input ui) with
                               | EmptyString => "Image to SVG Conversion"
                               | p => p
                               end;
                     timestamp := now env |};
           error := error st |}.
Proof.
  intros NL C Hs H.
  assert (G : submitDisabled ui (rendered sys) = false).
  { unfold submitDisabled. rewrite C.
    destruct (rendered sys); try reflexivity. congruence. }
  unfold handleSubmit. rewrite handleSubmit_guard, G. simpl.
  destruct (generateSvgFromPrompt_span (service env) _ _ _ _ raw Hs H)
    as (m & Gm & F).
  eexists. exists m.
  split; [reflexivity | split; [reflexivity | split; [exact F |]]].
  intros st. unfold handleGenerate_resume. simpl.
  unfold requestOf, settingsSent in Gm. rewrite Gm. simpl.
  unfold hasContent in C.
  destruct (trim (input ui)); [| reflexivity].
  destruct (selectedImage ui); [reflexivity | discriminate C].
Qed.

Lemma submit_then_markup_reply_witness :
  exists args m,
    pending (handleSubmit onGenerate foxUi (rendered initialSystem)
               initialSystem) = [args] /\
    FirstSvgSpan "<svg viewBox='0 0 1 1'></svg>" m /\
    option_map prompt
      (currentSvg
         (handleGenerate_resume foxEnv args
            (app (handleSubmit onGenerate foxUi (rendered initialSystem)
                    initialSystem)))) = Some "a red fox".
Proof.
  destruct (submit_then_markup_reply initialSystem foxUi foxEnv
              "<svg viewBox='0 0 1 1'></svg>") as (args & m & P & _ & F & E).
  - discriminate.
  - reflexivity.
  - reflexivity.
  - exists 0, "<svg viewBox='0 0 1 1'></svg>". split.
    + exists "<svg", " viewBox='0 0 1 1'>", "</svg>".
      repeat split; reflexivity.
    + exists "", "". split; reflexivity.
  - exists args, m. split; [exact P | split; [exact F |]].
    rewrite E. reflexivity.
Defined.

(** X13.  The submit button and the submit handler agree: the button is
    disabled exactly when a submit would do nothing, that is when the
    trimmed input is empty with no image attached, or the status is
    Loading. *)
Theorem submit_button_matches_handler (ui : InputSection.State)
    (st : GenerationStatus) :
  (submitDisabled ui st = true <-> submitRejected ui st) /\
  (submitDisabled ui st = true <->
   handleSubmit recordCall ui st [] = []) /\
  (submitDisabled ui st = true ->
   forall (W : Type) (callback : GenerateArgs -> W -> W) (w : W),
     handleSubmit callback ui st w = w).
Proof.
  unfold handleSubmit, submitRejected. split; [| split].
  - unfold submitDisabled, hasContent.
    destruct (trim (input ui)); destruct (selectedImage ui); destruct st;
      simpl; split; intros H; try reflexivity; try discriminate;
      try tauto;
      destruct H as [[A B] | A]; discriminate.
  - rewrite handleSubmit_guard.
    destruct (submitDisabled ui st); simpl; split; intros H;
      try reflexivity; discriminate.
  - intros D W callback w. now rewrite handleSubmit_guard, D.
Qed.

Lemma submit_button_matches_handler_witness :
  handleSubmit recordCall blankUi SUCCESS [] = [].
Proof.
  apply (submit_button_matches_handler blankUi SUCCESS). reflexivity.
Defined.

(** X14.  The prompt handed to the callback is trimmed: trimming it again
    changes nothing, it neither starts nor ends with white space, and it
    is empty only when an image is attached. *)
Theorem handleSubmit_prompt_trimmed (ui : InputSection.State)
    (st : GenerationStatus) (args : GenerateArgs) :
  handleSubmit recordCall ui st [] = [args] ->
  trim (arg_prompt args) = arg_prompt args /\
  (forall c r, arg_prompt args = String c r -> isWhiteSpace c = false) /\
  (forall r c, arg_prompt args = r ++ String c "" ->
     isWhiteSpace c = false) /\
  (arg_prompt args = "" -> arg_image args <> None).
Proof.
  unfold handleSubmit.
  destruct ((truthy (trim (input ui)) || isSome (selectedImage ui))
            && negb (isLoading st)) eqn:G; [| discriminate].
  unfold recordCall. simpl. intros [= <-]. simpl.
  split; [apply trim_idempotent | split; [| split]].
  - intros c r. apply trim_head.
  - intros r c. unfold trim. apply trimEnd_last.
  - intros E. rewrite E in G. simpl in G.
    destruct (selectedImage ui); [discriminate | discriminate G].
Qed.

Lemma handleSubmit_prompt_trimmed_witness :
  trim "a red fox" = "a red fox".
Proof.
  apply (handleSubmit_prompt_trimmed paddedUi ERROR
           {| arg_prompt := "a red fox";
              arg_image := None;
              arg_style := LineArt;
              arg_traceSettings :=
                Some (mkTraceSettings Low Full Thin Butt Solid) |}).
  reflexivity.
Defined.

(* ================================================================== *)
(** ** The image and the style *)
(* ================================================================== *)

Section ImageFacts.

Lemma split_no_sep (sep : ascii) (a : string) :
  ~ Contains a (String sep "") -> split sep a = [a].
Proof.
  induction a as [|x a IH]; intros N; [reflexivity |].
  simpl. destruct (Ascii.eqb_spec x sep) as [-> | Ne].
  - exfalso. apply N. exists 0, "", a. now split.
  - rewrite IH; [reflexivity |].
    intros (n & pre & post & E & L). apply N.
    exists (S n), (String x pre), post.
    split; [now rewrite E | simpl; now rewrite L].
Qed.

Lemma split_first_sep (sep : ascii) (a b : string) :
  ~ Contains a (String sep "") ->
  split sep (a ++ String sep b) = a :: split sep b.
Proof.
  induction a as [|x a IH]; intros N.
  - simpl. now rewrite Ascii.eqb_refl.
  - simpl. destruct (Ascii.eqb_spec x sep) as [-> | Ne].
    + exfalso. apply N. exists 0, "", a. now split.
    + rewrite IH; [reflexivity |].
      intros (n & pre & post & E & L). apply N.
      exists (S n), (String x pre), post.
      split; [now rewrite E | simpl; now rewrite L].
Qed.

End ImageFacts.

(** X15.  The read of a data URL.  When the result of the reader is a
    header without comma, a comma and a payload without comma, the image
    stored has the payload for data, the type of the file for MIME type
    and the whole result for preview; these two, and not the preview, are
    what the service is sent.  A result without comma gives no image
    object with data. *)
Theorem imageDataOf_data_url (fileType header payload : string) :
  ~ Contains header "," -> ~ Contains payload "," ->
  imageDataOf fileType (header ++ "," ++ payload)
    = Some {| data := payload;
              mimeType := fileType;
              previewUrl := header ++ "," ++ payload |} /\
  imagePartOf (imageDataOf fileType (header ++ "," ++ payload))
    = Some {| inlineData_data := payload;
              inlineData_mimeType := fileType |} /\
  imageDataOf fileType header = None.
Proof.
  intros Nh Np. unfold imageDataOf.
  change (header ++ "," ++ payload)
    with (header ++ String ","%char payload).
  rewrite (split_first_sep ","%char header payload Nh).
  rewrite (split_no_sep ","%char payload Np).
  rewrite (split_no_sep ","%char header Nh).
  repeat split.
Qed.

Lemma imageDataOf_data_url_witness :
  imageDataOf "image/png" "data:image/png;base64,aGVsbG8=" = Some pngImage.
Proof.
  apply (imageDataOf_data_url "image/png" "data:image/png;base64" "aGVsbG8=").
  - intros C. apply includes_true in C. vm_compute in C. discriminate C.
  - intros C. apply includes_true in C. vm_compute in C. discriminate C.
Defined.

(** X16.  The image and the style.  Attaching an image stores it and moves
    the style from Flat to Vector Trace, leaving any other style; clearing
    the image moves the style from Vector Trace to Flat, leaving any other
    style; neither touches the input or the settings.  So attaching and
    then clearing gives back the state there was, without image, unless
    the style was Vector Trace from the start, which ends as Flat.  A file
    whose type does not start with [image/] is ignored. *)
Theorem image_style_coupling (st : InputSection.State) (img : ImageData) :
  let attached := onloadend (selectedStyle st) img st in
  selectedImage attached = Some img /\
  selectedStyle attached =
    match selectedStyle st with Flat => VectorTrace | other => other end /\
  selectedStyle attached <> Flat /\
  input attached = input st /\ traceSettings attached = traceSettings st /\
  selectedImage (clearImage st) = None /\
  selectedStyle (clearImage st) =
    match selectedStyle st with VectorTrace => Flat | other => other end /\
  selectedStyle (clearImage st) <> VectorTrace /\
  input (clearImage st) = input st /\
  traceSettings (clearImage st) = traceSettings st /\
  clearImage attached =
    match selectedStyle st with
    | VectorTrace => setSelectedStyle Flat (setSelectedImage None st)
    | _ => setSelectedImage None st
    end /\
  (forall fileType result,
     startsWith fileType "image/" = false ->
     processFile fileType result st = Some st) /\
  (forall fileType header payload,
     startsWith fileType "image/" = true ->
     ~ Contains header "," -> ~ Contains payload "," ->
     processFile fileType (header ++ "," ++ payload) st
       = Some (onloadend (selectedStyle st)
                 {| data := payload; mimeType := fileType;
                    previewUrl := header ++ "," ++ payload |} st)).
Proof.
  cbv zeta. destruct st as [i si ss ts].
  repeat match goal with |- _ /\ _ => split end;
    try (destruct ss; simpl; first [reflexivity | discriminate]).
  - intros fileType result F. unfold processFile. now rewrite F.
  - intros fileType header payload T Nh Np. unfold processFile, imageDataOf.
    rewrite T. simpl negb. cbv iota.
    change (header ++ "," ++ payload)
      with (header ++ String ","%char payload).
    rewrite (split_first_sep ","%char header payload Nh).
    now rewrite (split_no_sep ","%char payload Np).
Qed.

Lemma image_style_coupling_witness :
  processFile "text/plain" "data:text/plain;base64,aGk=" InputSection.initialState
    = Some InputSection.initialState /\
  option_map selectedStyle
    (processFile "image/png" "data:image/png;base64,aGVsbG8="
       InputSection.initialState) = Some VectorTrace.
Proof.
  pose proof (image_style_coupling InputSection.initialState pngImage) as H.
  cbv zeta in H.
  destruct H as (_ & _ & _ & _ & _ & _ & _ & _ & _ & _ & _ & Ig & Rd).
  split.
  - apply Ig. reflexivity.
  - change "data:image/png;base64,aGVsbG8="
      with ("data:image/png;base64" ++ "," ++ "aGVsbG8=").
    rewrite (Rd "image/png" "data:image/png;base64" "aGVsbG8=").
    + reflexivity.
    + reflexivity.
    + intros C. apply includes_true in C. vm_compute in C. discriminate C.
    + intros C. apply includes_true in C. vm_compute in C. discriminate C.
Defined.

(** X17.  Uploading and generating without typing.  On the form as it
    starts, once a picture is read the style is Vector Trace; a submit
    while not Loading then invokes the callback once, with the empty
    prompt, the picture, Vector Trace and the default settings.  The
    request composed has temperature 0.15, carries the data and the type
    of the picture, asks to [Convert to SVG] and to trace, and its style
    rules have the directives of the settings block, in order. *)
Theorem upload_and_generate (img : ImageData) (st : GenerationStatus) :
  let ui := onloadend Flat img InputSection.initialState in
  st <> LOADING ->
  handleSubmit recordCall ui st []
    = [ {| arg_prompt := "";
           arg_image := Some img;
           arg_style := VectorTrace;
           arg_traceSettings :=
             Some (mkTraceSettings Medium Limited Standard Round NoFill) |} ] /\
  temperature (requestOf ui) = 0.15%Q /\
  contents (requestOf ui)
    = Parts {| inlineData_data := data img;
               inlineData_mimeType := mimeType img |}
        (imageTemplate "Vector Trace" "Convert to SVG") /\
  Contains (imageTemplate "Vector Trace" "Convert to SVG")
    "CRITICAL: Trace the image" /\
  map directiveOf (splitLines (instructionsOf ui))
    = [None; None; Some DComplexity; Some DColors; Some DStroke; Some DCap].
Proof.
  cbv zeta. intros NL.
  split; [destruct st; try reflexivity; congruence |].
  split; [reflexivity |]. split; [reflexivity |].
  split; [apply includes_true; vm_compute; reflexivity |].
  vm_compute. reflexivity.
Qed.

Lemma upload_and_generate_witness :
  List.length
    (handleSubmit recordCall
       (onloadend Flat pngImage InputSection.initialState) IDLE []) = 1.
Proof.
  destruct (upload_and_generate pngImage IDLE) as [H _]; [discriminate |].
  cbv zeta in H. rewrite H. reflexivity.
Defined.

(* ================================================================== *)
(** ** The catalog and the toolbar *)
(* ================================================================== *)

(** X18.  The catalog is total and its examples are ready to submit.  The
    style selector lists each of the fourteen styles once.  Every style
    has a guide with a non-empty description and three examples; clicking
    an example and submitting, while not Loading, invokes the callback
    once with that example, unchanged, as prompt. *)
Theorem style_catalog_examples (style : SvgStyle) :
  NoDup STYLES /\ List.length STYLES = 14 /\ In style STYLES /\
  description (STYLE_GUIDES style) <> "" /\
  List.length (examples (STYLE_GUIDES style)) = 3 /\
  forall example ui st,
    In example (examples (STYLE_GUIDES style)) -> st <> LOADING ->
    handleSubmit recordCall (setInput example ui) st []
      = [ {| arg_prompt := example;
             arg_image := selectedImage ui;
             arg_style := selectedStyle ui;
             arg_traceSettings := settingsSent ui |} ].
Proof.
  split; [| split; [reflexivity | split; [| split; [| split]]]].
  - unfold STYLES.
    repeat (constructor; [simpl; intros H;
      repeat (destruct H as [H | H]; [discriminate H |]); exact H |]).
    constructor.
  - destruct style; simpl; tauto.
  - destruct style; discriminate.
  - destruct style; reflexivity.
  - intros example ui st H NL.
    assert (T : trim example = example /\ truthy example = true).
    { destruct style; simpl in H;
        repeat (destruct H as [<- | H]; [split; vm_compute; reflexivity |]);
        contradiction. }
    destruct T as [T1 T2].
    unfold handleSubmit, setInput, settingsSent. simpl.
    rewrite T1, T2. simpl.
    destruct st; try reflexivity. congruence.
Qed.

Lemma style_catalog_examples_witness :
  handleSubmit recordCall (setInput "Low poly fox head" blankUi) IDLE []
    = [ {| arg_prompt := "Low poly fox head";
           arg_image := None;
           arg_style := Flat;
           arg_traceSettings := None |} ].
Proof.
  destruct (style_catalog_examples LowPoly) as (_ & _ & _ & _ & _ & H).
  apply (H "Low poly fox head" blankUi IDLE).
  - simpl. tauto.
  - discriminate.
Defined.

Section ToolbarFacts.

Lemma allTraceSettings_complete (ts : TraceSettings) :
  In ts allTraceSettings.
Proof.
  destruct ts as [cx co sw lc lf]. unfold allTraceSettings.
  apply in_flat_map. exists cx. split; [destruct cx; simpl; tauto |].
  apply in_flat_map. exists co. split; [destruct co; simpl; tauto |].
  apply in_flat_map. exists sw. split; [destruct sw; simpl; tauto |].
  apply in_flat_map. exists lc. split; [destruct lc; simpl; tauto |].
  apply (in_map (fun f => mkTraceSettings cx co sw lc f)).
  destruct lf; simpl; tauto.
Qed.

Lemma fieldIndex_sameField (c : Control) (a b : TraceSettings) :
  fieldIndex c a = fieldIndex c b <-> sameField c a b.
Proof.
  destruct a as [cx co sw lc lf], b as [cx' co' sw' lc' lf'].
  destruct c; simpl.
  - destruct cx, cx'; split; intros H; try reflexivity; discriminate H.
  - destruct co, co'; split; intros H; try reflexivity; discriminate H.
  - destruct lf, lf'; split; intros H; try reflexivity; discriminate H.
  - destruct sw, sw'; split; intros H; try reflexivity; discriminate H.
  - destruct lc, lc'; split; intros H; try reflexivity; discriminate H.
Qed.

Lemma agreeOnShown_spec (style : SvgStyle) (a b : TraceSettings) :
  agreeOnShown style a b = true <->
  forall c, controlShown (InputSection.mkState "" None style a) c = true ->
            sameField c a b.
Proof.
  unfold agreeOnShown. rewrite forallb_forall. split.
  - intros H c S. apply fieldIndex_sameField. apply Nat.eqb_eq.
    assert (I : In c allControls) by (destruct c; simpl; tauto).
    specialize (H c I). now rewrite S in H.
  - intros H c _.
    destruct (controlShown (InputSection.mkState "" None style a) c) eqn:S;
      [| reflexivity].
    simpl. apply Nat.eqb_eq. apply fieldIndex_sameField. now apply H.
Qed.

Lemma blocksTellApart_advanced :
  blocksTellApart VectorTrace = true /\ blocksTellApart LineArt = true.
Proof. split; vm_compute; reflexivity. Qed.

Lemma blocksTellApart_spec (style : SvgStyle) (a b : TraceSettings) :
  blocksTellApart style = true ->
  (settingsRefinement (styleName style) a
   = settingsRefinement (styleName style) b <->
   agreeOnShown style a b = true).
Proof.
  unfold blocksTellApart. cbv zeta. rewrite forallb_forall. intros H.
  specialize (H (a, settingsRefinement (styleName style) a)
                (in_map _ _ _ (allTraceSettings_complete a))).
  rewrite forallb_forall in H.
  specialize (H (b, settingsRefinement (styleName style) b)
                (in_map _ _ _ (allTraceSettings_complete b))).
  simpl in H. apply Bool.eqb_prop in H. rewrite <- H.
  symmetry. apply String.eqb_eq.
Qed.

Lemma append_cancel_l (p a b : string) : p ++ a = p ++ b <-> a = b.
Proof.
  split; [| now intros ->].
  induction p as [|x p IH]; simpl; [auto |].
  intros [= H]. auto.
Qed.

(** The style rules of the two advanced styles: the rule, then the
    block. *)
Lemma advanced_rule_and_block (ts : TraceSettings) :
  getStyleInstructions "Vector Trace" (Some ts)
  = getStyleInstructions "Vector Trace" None
      ++ settingsRefinement "Vector Trace" ts /\
  getStyleInstructions "Line Art" (Some ts)
  = getStyleInstructions "Line Art" None
      ++ settingsRefinement "Line Art" ts.
Proof. split; reflexivity. Qed.

(** The directives of the two advanced styles, line by line. *)
Lemma advanced_directives (ts : TraceSettings) :
  map directiveOf
    (splitLines (getStyleInstructions "Vector Trace" (Some ts)))
  = [None; None; Some DComplexity; Some DColors; Some DStroke; Some DCap] /\
  map directiveOf
    (splitLines (getStyleInstructions "Line Art" (Some ts)))
  = [None; None; Some DFill; Some DStroke; Some DCap].
Proof.
  destruct ts as [[] [] [] [] []]; split; vm_compute; reflexivity.
Qed.

Lemma advanced_instructions_agree (a b : TraceSettings) :
  (getStyleInstructions (styleName VectorTrace) (Some a)
   = getStyleInstructions (styleName VectorTrace) (Some b) <->
   agreeOnShown VectorTrace a b = true) /\
  (getStyleInstructions (styleName LineArt) (Some a)
   = getStyleInstructions (styleName LineArt) (Some b) <->
   agreeOnShown LineArt a b = true).
Proof.
  split.
  - rewrite <- (blocksTellApart_spec VectorTrace a b
                  (proj1 blocksTellApart_advanced)).
    change (styleName VectorTrace) with "Vector Trace".
    rewrite (proj1 (advanced_rule_and_block a)),
            (proj1 (advanced_rule_and_block b)).
    apply append_cancel_l.
  - rewrite <- (blocksTellApart_spec LineArt a b
                  (proj2 blocksTellApart_advanced)).
    change (styleName LineArt) with "Line Art".
    rewrite (proj2 (advanced_rule_and_block a)),
            (proj2 (advanced_rule_and_block b)).
    apply append_cancel_l.
Qed.

End ToolbarFacts.

(** X19.  The toolbar and the instructions agree.  For every style, a
    control is shown exactly when the style rules of the request carry
    the directive of that control; two values of the settings give the
    same style rules exactly when they agree on every control shown; and
    the toolbar is shown exactly when settings are handed to the
    callback. *)
Theorem toolbar_controls_matter (text : string) (img : option ImageData)
    (style : SvgStyle) (a b : TraceSettings) :
  (forall c,
     controlShown (InputSection.mkState text img style a) c = true <->
     In (Some (controlDirective c))
        (map directiveOf
           (splitLines
              (instructionsOf (InputSection.mkState text img style a))))) /\
  (instructionsOf (InputSection.mkState text img style a)
   = instructionsOf (InputSection.mkState text img style b) <->
   forall c,
     controlShown (InputSection.mkState text img style a) c = true ->
     sameField c a b) /\
  (showSettings (InputSection.mkState text img style a) = true <->
   settingsSent (InputSection.mkState text img style a) = Some a).
Proof.
  split; [| split].
  - intros c. unfold instructionsOf, settingsSent.
    cbn [selectedStyle traceSettings].
    destruct style; cbn [isAdvanced styleName].
    3: rewrite (proj1 (advanced_directives a)).
    4: rewrite (proj2 (advanced_directives a)).
    all: destruct c; vm_compute;
      (split;
       [ first [ discriminate
               | intros _; repeat (first [left; reflexivity | right]) ]
       | first [ intros _; reflexivity
               | intros H;
                 repeat (destruct H as [H | H]; [discriminate H |]);
                 contradiction ] ]).
  - change (forall c,
              controlShown (InputSection.mkState text img style a) c = true ->
              sameField c a b)
      with (forall c,
              controlShown (InputSection.mkState "" None style a) c = true ->
              sameField c a b).
    rewrite <- agreeOnShown_spec.
    unfold instructionsOf, settingsSent.
    cbn [selectedStyle traceSettings].
    destruct style; cbn [isAdvanced].
    3: exact (proj1 (advanced_instructions_agree a b)).
    3: exact (proj2 (advanced_instructions_agree a b)).
    all: split; [intros _; vm_compute; reflexivity | reflexivity].
  - unfold showSettings, settingsSent. simpl.
    destruct style; simpl; split; intros H; try reflexivity;
      discriminate H.
Qed.

Lemma toolbar_controls_matter_witness :
  instructionsOf paddedUi
    = instructionsOf (toggleColors Monochrome (toggleComplexity High paddedUi)) /\
  instructionsOf paddedUi <> instructionsOf (toggleLineFill NoFill paddedUi).
Proof.
  destruct (toolbar_controls_matter "  a red fox " None LineArt
              (mkTraceSettings Low Full Thin Butt Solid)
              (mkTraceSettings High Monochrome Thin Butt Solid))
    as (_ & E & _).
  destruct (toolbar_controls_matter "  a red fox " None LineArt
              (mkTraceSettings Low Full Thin Butt Solid)
              (mkTraceSettings Low Full Thin Butt NoFill))
    as (_ & N & _).
  split.
  - apply (proj2 E). intros c. destruct c; simpl; intros H;
      first [discriminate H | reflexivity].
  - intros H. pose proof (proj1 N H FillControl eq_refl) as F.
    discriminate F.
Defined.

(* ================================================================== *)
(** ** Errors that bring their own suggestion *)
(* ================================================================== *)

(** X20.  An error thrown with a non-empty suggestion of its own is not
    classified: it is rejected with as it is, and the card shows its
    message, its details and its suggestion.  The fixed title stands in
    for an empty or absent message; absent or empty details are replaced
    by the rendering of the error, name and message joined by a colon. *)
Theorem rethrown_error_shown (e : JsError) :
  truthyOpt (err_suggestion e) = true ->
  handleError e = e /\
  (forall service prompt imagePart style traceSettings,
     service (composeRequest prompt imagePart style traceSettings)
       = Rejected e ->
     generateSvgFromPrompt service prompt imagePart style traceSettings
       = inl e) /\
  suggestion (apiErrorOf e) = err_suggestion e /\
  (forall m, err_message e = Some m -> m <> "" ->
     message (apiErrorOf e) = m) /\
  (err_message e = None \/ err_message e = Some "" ->
     message (apiErrorOf e) = "Generation Failed") /\
  (forall d, err_details e = Some d -> d <> "" ->
     details (apiErrorOf e) = Some d) /\
  (forall m, err_details e = None \/ err_details e = Some "" ->
     err_message e = Some m -> m <> "" -> err_name e <> "" ->
     details (apiErrorOf e) = Some (err_name e ++ ": " ++ m)).
Proof.
  intros T.
  assert (H : handleError e = e) by (unfold handleError; now rewrite T).
  split; [exact H | split; [| split; [reflexivity | split; [| split; [| split]]]]].
  - intros service prompt imagePart style traceSettings Hs.
    unfold generateSvgFromPrompt, tryBlock. now rewrite Hs, H.
  - intros m E Ne. unfold apiErrorOf. simpl. rewrite E.
    destruct m; [congruence | reflexivity].
  - intros [E | E]; unfold apiErrorOf; simpl; now rewrite E.
  - intros d E Ne. unfold apiErrorOf. simpl. rewrite E.
    destruct d; [congruence | reflexivity].
  - intros m D E Nm Nn. unfold apiErrorOf, errorToString. simpl.
    rewrite E.
    destruct (err_name e) as [|c n]; [congruence |].
    destruct m as [|c' m]; [congruence |].
    destruct D as [D | D]; rewrite D; reflexivity.
Qed.

Lemma rethrown_error_shown_witness :
  details (apiErrorOf (handleError advisedError))
  = Some "ApiError: Model is warming up".
Proof.
  destruct (rethrown_error_shown advisedError eq_refl)
    as (H & _ & _ & _ & _ & _ & D).
  rewrite H.
  apply (D "Model is warming up");
    [now left | reflexivity | discriminate | discriminate].
Defined.
